(** * extract_wacz.py: conversion of a WACZ archive into a harvest directory

    A shallow embedding of [src/extract_wacz.py] and the properties of the
    conversion that its specification states.

    Conventions of the embedding.
    - A Python [str] is a Rocq [string]; one character stands for one code
      point (the 8-bit range is what the model can name).
    - A value decoded from JSON is a [pyval]; a JSON object is a finite map.
    - Code that raises returns [Err e]; code that touches the file system is
      a function from [state] to a result and a new [state].
    - The [os], [shutil] and [zipfile] calls follow their POSIX behaviour on a
      single file system without symbolic links or permissions, with room
      for what is written.  Python refuses a path that holds a NUL
      character, and a directory takes no name of more than 255 bytes; the
      length of a whole path is not limited. *)

From Stdlib Require Import ZArith Ascii String List Strings.Byte SpecFloat.
From stdpp Require Import gmap strings list fin_maps.

Set Warnings "-register-all".

(** ** Python values and exceptions *)

Inductive pyval :=
| PNone
| PBool (b : bool)
| PInt (z : Z)
| PFloat (f : spec_float)
| PStr (s : string)
| PList (l : list pyval)
| PDict (d : gmap string pyval).

(** Error numbers that have no exception class of their own. *)
Inductive errno := ENOTEMPTY | EINVAL | EBUSY | ENAMETOOLONG.

Inductive exn :=
| ValueError (msg : string)
| TypeError
| KeyError (key : string)
| JSONDecodeError
| FileExistsError
| FileNotFoundError
| NotADirectoryError
| IsADirectoryError
| IndexError
| OSError (e : errno)
| ShutilError (msg : string).

Inductive result (A : Type) :=
| Ok (a : A)
| Err (e : exn).
Arguments Ok {A} a.
Arguments Err {A} e.

(** Truth value of an object, as [if v:] tests it. *)
Definition truthy (v : pyval) : bool :=
  match v with
  | PNone => false
  | PBool b => b
  | PInt z => negb (z =? 0)%Z
  | PFloat (S754_zero _) => false
  | PFloat _ => true
  | PStr s => negb (String.eqb s "")
  | PList l => negb (Nat.eqb (length l) 0)
  | PDict d => negb (Nat.eqb (size d) 0)
  end.

(** ** String operations used by the script *)

(** [s[:n]] *)
Fixpoint str_take (n : nat) (s : string) : string :=
  match n, s with
  | S n', String a r => String a (str_take n' r)
  | _, _ => EmptyString
  end.

(** [s[n:]] *)
Fixpoint str_drop (n : nat) (s : string) : string :=
  match n, s with
  | S n', String _ r => str_drop n' r
  | _, _ => s
  end.

(** [s.split(c)[0]]: the text before the first [c], all of [s] without one. *)
Fixpoint str_split_head (c : ascii) (s : string) : string :=
  match s with
  | EmptyString => EmptyString
  | String a r => if Ascii.eqb a c then EmptyString else String a (str_split_head c r)
  end.

(** [s.rfind(c) + 1], with [s.rfind] giving -1 when [c] does not occur. *)
Fixpoint rfind_succ (c : ascii) (s : string) : nat :=
  match s with
  | EmptyString => 0
  | String a r =>
      match rfind_succ c r with
      | S i => S (S i)
      | O => if Ascii.eqb a c then 1 else 0
      end
  end.

(** [c in s] *)
Fixpoint str_contains (c : ascii) (s : string) : bool :=
  match s with
  | EmptyString => false
  | String a r => Ascii.eqb a c || str_contains c r
  end.

(** [s.startswith(p)] *)
Fixpoint startswith (s p : string) {struct p} : bool :=
  match p, s with
  | EmptyString, _ => true
  | String _ _, EmptyString => false
  | String b p', String a s' => Ascii.eqb a b && startswith s' p'
  end.

(** [s.endswith(c)] for a one-character suffix. *)
Fixpoint endswith_char (s : string) (c : ascii) : bool :=
  match s with
  | EmptyString => false
  | String a EmptyString => Ascii.eqb a c
  | String _ r => endswith_char r c
  end.

(** [s.split(c)]: never empty, [""] gives [[""]]. *)
Fixpoint str_split (c : ascii) (s : string) : list string :=
  match s with
  | EmptyString => [EmptyString]
  | String a r =>
      if Ascii.eqb a c then EmptyString :: str_split c r
      else match str_split c r with
           | w :: ws => String a w :: ws
           | [] => [String a EmptyString]
           end
  end.

(** [s.rstrip(c)] *)
Fixpoint str_rstrip (c : ascii) (s : string) : string :=
  match s with
  | EmptyString => EmptyString
  | String a r =>
      match str_rstrip c r with
      | EmptyString => if Ascii.eqb a c then EmptyString else String a EmptyString
      | r' => String a r'
      end
  end.

(** ** posixpath *)

Definition sep : ascii := "/"%char.

(** [os.path.basename(p)]: [p[p.rfind('/') + 1:]] *)
Definition os_path_basename (p : string) : string :=
  str_drop (rfind_succ sep p) p.

(** [os.path.join(a, b)] *)
Definition os_path_join (a b : string) : string :=
  if startswith b "/" then b
  else if String.eqb a "" || endswith_char a sep then a +:+ b
  else a +:+ "/" +:+ b.

(** [os.path.split(p)]: head is [p[:i]] without its trailing slashes unless
    it consists of slashes only, tail is [p[i:]]. *)
Definition os_path_split (p : string) : string * string :=
  let i := rfind_succ sep p in
  let head := str_take i p in
  let tail := str_drop i p in
  (match str_rstrip sep head with
   | EmptyString => head
   | h => h
   end, tail).

(** ** Harvest metadata *)

Definition HARVEST_NAME_PREFIX : string := "Linkra".
Definition SCRIPT_NAME : string := "extract_wacz.py".
Definition SCRIPT_VERSION : string := "1.0.0".

Record RequiredHarvestMetadata := {
  full_date : pyval;
  date : pyval
}.

Record OptionalHarvestMetadata := {
  title : pyval;
  software : pyval;
  main_page_url : pyval;
  main_page_date : pyval
}.

Record HarvestMetadata := {
  required : RequiredHarvestMetadata;
  optional : OptionalHarvestMetadata
}.

(** [v[:7]]: strings and lists can be sliced, nothing else a JSON document
    holds can. *)
Definition slice7 (v : pyval) : result pyval :=
  match v with
  | PStr s => Ok (PStr (str_take 7 s))
  | PList l => Ok (PList (take 7 l))
  | _ => Err TypeError
  end.

Definition is_str (k : string) (v : pyval) : bool :=
  match v with
  | PStr s => String.eqb s k
  | _ => false
  end.

(** [k in v] for a string [k]: a key of a dict, an element of a list, a
    substring of a string. *)
Definition py_in (k : string) (v : pyval) : result bool :=
  match v with
  | PDict d => Ok (bool_decide (is_Some (d !! k)))
  | PList l => Ok (existsb (is_str k) l)
  | PStr s => Ok (bool_decide (is_Some (String.index 0 k s)))
  | _ => Err TypeError
  end.

(** [v[k]] for a string [k] *)
Definition py_getitem (v : pyval) (k : string) : result pyval :=
  match v with
  | PDict d =>
      match d !! k with
      | Some x => Ok x
      | None => Err (KeyError k)
      end
  | _ => Err TypeError
  end.

Definition missing_created_message : string :=
  "This script requires that the datapackage.json has a 'created' property, but it was not found!".

Definition RequiredHarvestMetadata_init (datapackage_json_object : pyval)
  : result RequiredHarvestMetadata :=
  match py_in "created" datapackage_json_object with
  | Err e => Err e
  | Ok true =>
      match py_getitem datapackage_json_object "created" with
      | Err e => Err e
      | Ok created =>
          match slice7 created with
          | Err e => Err e
          | Ok d => Ok {| full_date := created; date := d |}
          end
      end
  | Ok false => Err (ValueError missing_created_message)
  end.

(** [self.x = None], then [self.x = d[k]] when [k in d]. *)
Definition get_or_None (d : pyval) (k : string) : result pyval :=
  match py_in k d with
  | Err e => Err e
  | Ok true => py_getitem d k
  | Ok false => Ok PNone
  end.

Definition OptionalHarvestMetadata_init (datapackage_json_object : pyval)
  : result OptionalHarvestMetadata :=
  match get_or_None datapackage_json_object "title" with
  | Err e => Err e
  | Ok t =>
  match get_or_None datapackage_json_object "software" with
  | Err e => Err e
  | Ok sw =>
  match get_or_None datapackage_json_object "mainPageUrl" with
  | Err e => Err e
  | Ok u =>
  match get_or_None datapackage_json_object "mainPageDate" with
  | Err e => Err e
  | Ok d =>
      Ok {| title := t; software := sw; main_page_url := u; main_page_date := d |}
  end end end end.

Definition HarvestMetadata_init (datapackage_json_object : pyval)
  : result HarvestMetadata :=
  match RequiredHarvestMetadata_init datapackage_json_object with
  | Err e => Err e
  | Ok r =>
      match OptionalHarvestMetadata_init datapackage_json_object with
      | Err e => Err e
      | Ok o => Ok {| required := r; optional := o |}
      end
  end.

(** ** File system state

    A location is the list of names from the root directory down.  The map
    holds every directory and regular file; [[]] is the root directory.  The
    log records the calls that changed the file system, oldest first. *)

Abbreviation key := (list string).
Abbreviation bytes := (list byte).

Inductive node :=
| Dir
| File (content : bytes).

Inductive event :=
| EvMkdir (k : key)
| EvWrite (k : key) (content : bytes)
| EvRename (src dst : key)
| EvRmdir (k : key).

Record state := {
  fs : gmap key node;
  cwd : key;
  log : list event
}.

Definition update (s : state) (m : gmap key node) (e : event) : state :=
  {| fs := m; cwd := cwd s; log := log s ++ [e] |}.

(** Computations that read and change the state and may raise. *)
Definition M (A : Type) : Type := state → result A * state.

Global Instance M_ret : MRet M := λ A a s, (Ok a, s).

Global Instance M_bind : MBind M := λ A B f m s,
  match m s with
  | (Ok a, s') => f a s'
  | (Err e, s') => (Err e, s')
  end.

Definition raise {A : Type} (e : exn) : M A := λ s, (Err e, s).

(** [if c: m] *)
Definition when (c : bool) (m : M unit) : M unit := if c then m else mret tt.

(** [for x in l: body(x)] *)
Fixpoint for_each {A : Type} (l : list A) (body : A → M unit) : M unit :=
  match l with
  | [] => mret tt
  | x :: l' => body x;; for_each l' body
  end.

(** UTF-8 of the code points the model has: one byte below 128, two above. *)
Definition utf8_char (a : ascii) : bytes :=
  let n := N_of_ascii a in
  if (n <? 128)%N then [byte_of_ascii a]
  else [byte_of_ascii (ascii_of_N (192 + n / 64)); byte_of_ascii (ascii_of_N (128 + n mod 64))].

Fixpoint utf8 (s : string) : bytes :=
  match s with
  | EmptyString => []
  | String a r => utf8_char a ++ utf8 r
  end.

(** ** Names

    Python refuses a path that holds a NUL character before it calls the
    system, and a directory takes no name of more than [NAME_MAX] bytes. *)

Definition NUL : ascii := "000"%char.

Definition NAME_MAX : nat := 255.

Definition has_nul (c : string) : bool := str_contains NUL c.

Definition too_long (c : string) : bool := NAME_MAX <? length (utf8 c).

Definition valid_name (c : string) : bool := negb (has_nul c) && negb (too_long c).

Arguments has_nul !c /.
Arguments too_long !c /.
Arguments valid_name !c /.

(** ** Path resolution *)

Record ppath := {
  p_abs : bool;            (* starts with a slash *)
  p_comps : list string;   (* the non-empty names between slashes *)
  p_slash : bool           (* ends with a slash *)
}.

Definition nonempty (c : string) : bool := negb (String.eqb c "").

Definition parse_path (p : string) : ppath :=
  {| p_abs := startswith p "/";
     p_comps := List.filter nonempty (str_split sep p);
     p_slash := endswith_char p sep |}.

Definition step (cur : key) (c : string) : key :=
  if String.eqb c "." then cur
  else if String.eqb c ".." then removelast cur
  else cur ++ [c].

(** Follows the names one by one; every place a name is looked up in has to
    be a directory, and a name that is too long is not looked up. *)
Fixpoint walk (m : gmap key node) (cur : key) (cs : list string) : result key :=
  match cs with
  | [] => Ok cur
  | c :: cs' =>
      match m !! cur with
      | Some Dir =>
          if too_long c then Err (OSError ENAMETOOLONG) else walk m (step cur c) cs'
      | Some (File _) => Err NotADirectoryError
      | None => Err FileNotFoundError
      end
  end.

Definition nul_path (p : ppath) : bool := existsb has_nul (p_comps p).

(** The path without the slash it ends with. *)
Definition no_slash (p : ppath) : ppath :=
  {| p_abs := p_abs p; p_comps := p_comps p; p_slash := false |}.

(** Where a path leads and what is there; [None] for a free name in an
    existing directory. *)
Definition resolve_pp (s : state) (p : ppath) : result (key * option node) :=
  if nul_path p then Err (ValueError "embedded null byte")
  else if negb (p_abs p) && Nat.eqb (length (p_comps p)) 0 then Err FileNotFoundError
  else
    match walk (fs s) (if p_abs p then [] else cwd s) (p_comps p) with
    | Err e => Err e
    | Ok k =>
        match fs s !! k with
        | Some (File c) => if p_slash p then Err NotADirectoryError else Ok (k, Some (File c))
        | n => Ok (k, n)
        end
    end.

Definition resolve (s : state) (p : string) : result (key * option node) :=
  resolve_pp s (parse_path p).

(** The walk to the directory the last name of a path is looked up in. *)
Definition resolve_dir (s : state) (p : ppath) : result unit :=
  if negb (p_abs p) && Nat.eqb (length (p_comps p)) 0 then Err FileNotFoundError
  else
    match p_comps p with
    | [] => Ok tt
    | _ :: _ =>
        match walk (fs s) (if p_abs p then [] else cwd s) (removelast (p_comps p)) with
        | Err e => Err e
        | Ok k =>
            match fs s !! k with
            | Some Dir => Ok tt
            | Some (File _) => Err NotADirectoryError
            | None => Err FileNotFoundError
            end
        end
    end.

(** The path has no last name that can be given or taken away: it ends
    with [.] or [..], or it is the root directory. *)
Definition dot_final (p : ppath) : bool :=
  match last (p_comps p) with
  | Some c => String.eqb c "." || String.eqb c ".."
  | None => true
  end.

(** [Some rest] when [k = pre ++ rest]. *)
Fixpoint strip_prefix (pre k : key) : option key :=
  match pre, k with
  | [], _ => Some k
  | a :: pre', b :: k' => if String.eqb a b then strip_prefix pre' k' else None
  | _ :: _, [] => None
  end.

Definition under_or_eq (top k : key) : bool :=
  match strip_prefix top k with Some _ => true | None => false end.

Definition strictly_under (top k : key) : bool :=
  match strip_prefix top k with Some (_ :: _) => true | _ => false end.

Definition has_children (m : gmap key node) (k : key) : bool :=
  existsb (λ kn, strictly_under k kn.1) (map_to_list m).

(** The tree below [src] re-rooted at [dst]; everything else stays, except
    what was at or below [dst]. *)
Definition move_tree (src dst : key) (m : gmap key node) : gmap key node :=
  foldr (λ kn acc,
           match strip_prefix src kn.1 with
           | Some rest => <[dst ++ rest := kn.2]> acc
           | None => acc
           end)
        (filter (λ kn, under_or_eq src kn.1 = false ∧ under_or_eq dst kn.1 = false) m)
        (map_to_list m).

(** ** System calls *)

(** [os.mkdir]: a slash at the end of the path makes no difference. *)
Definition mkdir_pp (p : ppath) : M unit := λ s,
  match resolve_pp s (no_slash p) with
  | Err e => (Err e, s)
  | Ok (_, Some _) => (Err FileExistsError, s)
  | Ok (k, None) => (Ok tt, update s (<[k := Dir]> (fs s)) (EvMkdir k))
  end.

Definition exists_pp (s : state) (p : ppath) : bool :=
  match resolve_pp s p with
  | Ok (_, Some _) => true
  | _ => false
  end.

Definition isdir_pp (s : state) (p : ppath) : bool :=
  match resolve_pp s p with
  | Ok (_, Some Dir) => true
  | _ => false
  end.

(** [open(p, "w")], the writes, and the close: the file holds [content]
    afterwards, whether it existed or not; a path that ends with a slash
    names no file. *)
Definition write_pp (p : ppath) (content : bytes) : M unit := λ s,
  match resolve_pp s (no_slash p) with
  | Err e => (Err e, s)
  | Ok (_, Some Dir) => (Err IsADirectoryError, s)
  | Ok (k, _) =>
      if p_slash p then (Err IsADirectoryError, s)
      else (Ok tt, update s (<[k := File content]> (fs s)) (EvWrite k content))
  end.

Definition os_mkdir (p : string) : M unit := mkdir_pp (parse_path p).

Definition os_path_exists (p : string) : M bool := λ s, (Ok (exists_pp s (parse_path p)), s).

Definition os_path_isdir (p : string) : M bool := λ s, (Ok (isdir_pp s (parse_path p)), s).

Definition open_write (p : string) (content : bytes) : M unit := write_pp (parse_path p) content.

Definition os_rmdir (p : string) : M unit := λ s,
  match resolve s p with
  | Err e => (Err e, s)
  | Ok (_, None) => (Err FileNotFoundError, s)
  | Ok (_, Some (File _)) => (Err NotADirectoryError, s)
  | Ok (k, Some Dir) =>
      if bool_decide (last (p_comps (parse_path p)) = Some ".") then (Err (OSError EINVAL), s)
      else if has_children (fs s) k then (Err (OSError ENOTEMPTY), s)
      else if bool_decide (k = []) then (Err (OSError EBUSY), s)
      else (Ok tt, update s (delete k (fs s)) (EvRmdir k))
  end.

(** [os.rename(src, dst)].  Both paths are converted before the call.  The
    system walks to the directories of the two last names, refuses a last
    name that is [.], [..] or the root, looks up the source and then the
    target, and only then compares what it found: a regular file replaces a
    regular file, a directory replaces an empty directory. *)
Definition os_rename (src dst : string) : M unit := λ s,
  let ps := parse_path src in
  let pd := parse_path dst in
  if nul_path ps || nul_path pd then (Err (ValueError "embedded null byte"), s)
  else
    match resolve_dir s ps, resolve_dir s pd with
    | Err e, _ => (Err e, s)
    | Ok _, Err e => (Err e, s)
    | Ok _, Ok _ =>
        if dot_final ps || dot_final pd then (Err (OSError EBUSY), s)
        else
          match resolve_pp s (no_slash ps) with
          | Err e => (Err e, s)
          | Ok (_, None) => (Err FileNotFoundError, s)
          | Ok (ks, Some n) =>
              match resolve_pp s (no_slash pd) with
              | Err e => (Err e, s)
              | Ok (kd, nd) =>
                  match n with
                  | File c =>
                      if p_slash ps || p_slash pd then (Err NotADirectoryError, s)
                      else if strictly_under kd ks then (Err (OSError ENOTEMPTY), s)
                      else if bool_decide (ks = kd) then (Ok tt, s)
                      else
                        match nd with
                        | Some Dir => (Err IsADirectoryError, s)
                        | _ =>
                            (Ok tt, update s (<[kd := File c]> (delete ks (fs s)))
                                      (EvRename ks kd))
                        end
                  | Dir =>
                      if strictly_under ks kd then (Err (OSError EINVAL), s)
                      else if strictly_under kd ks then (Err (OSError ENOTEMPTY), s)
                      else if bool_decide (ks = kd) then (Ok tt, s)
                      else
                        match nd with
                        | Some (File _) => (Err NotADirectoryError, s)
                        | _ =>
                            if has_children (fs s) kd then (Err (OSError ENOTEMPTY), s)
                            else (Ok tt, update s (move_tree ks kd (fs s)) (EvRename ks kd))
                        end
                  end
              end
          end
    end.

(** [try: m except FileExistsError: pass] *)
Definition ignore_FileExistsError (m : M unit) : M unit := λ s,
  match m s with
  | (Err FileExistsError, s') => (Ok tt, s')
  | r => r
  end.

(** [os.makedirs(name)] on a normalised path; [rcs] lists its names from the
    last one up, so [head] and [tail] of [os.path.split] are at hand. *)
Fixpoint makedirs_rev (abs : bool) (rcs : list string) : M unit :=
  let name := {| p_abs := abs; p_comps := rev rcs; p_slash := false |} in
  match rcs with
  | [] => mkdir_pp name
  | tail :: rhead =>
      let head := {| p_abs := abs; p_comps := rev rhead; p_slash := false |} in
      λ s,
        if (abs || negb (Nat.eqb (length rhead) 0)) && negb (exists_pp s head) then
          (ignore_FileExistsError (makedirs_rev abs rhead);;
           if String.eqb tail "." then mret tt else mkdir_pp name) s
        else mkdir_pp name s
  end.

Definition os_makedirs_pp (p : ppath) : M unit := makedirs_rev (p_abs p) (rev (p_comps p)).

(** One round of the loop of [os.path.normpath]; the stack holds the names
    kept so far, the last one on top. *)
Definition norm_step (abs : bool) (stack : list string) (c : string) : list string :=
  if String.eqb c "." then stack
  else if negb (String.eqb c "..") then c :: stack
  else match stack with
       | [] => if abs then [] else [c]
       | top :: rest => if String.eqb top ".." then c :: stack else rest
       end.

Definition normpath_pp (p : ppath) : ppath :=
  let cs := rev (fold_left (norm_step (p_abs p)) (p_comps p) []) in
  {| p_abs := p_abs p;
     p_comps := if negb (p_abs p) && Nat.eqb (length cs) 0 then ["."] else cs;
     p_slash := false |}.

(** ** zipfile *)

(** A member as the archive object holds it.  [zipfile] cuts a name it
    reads at its first NUL character, so the names of the members of an
    archive that was read hold none. *)
Record ZipInfo := {
  filename : string;
  file_data : bytes
}.

Record ZipFile := {
  zip_filename : string;
  filelist : list ZipInfo
}.

(** [wacz_zip.read(name)]: the last member of that name. *)
Definition zip_read (z : ZipFile) (name : string) : result bytes :=
  match last (List.filter (λ zi, String.eqb (filename zi) name) (filelist z)) with
  | Some zi => Ok (file_data zi)
  | None => Err (KeyError name)
  end.

Definition invalid_path_part (x : string) : bool :=
  String.eqb x "" || String.eqb x "." || String.eqb x "..".

(** [wacz_zip.extract(member, path)]: the member name loses its empty, [.]
    and [..] parts, is joined to [path] and normalised; the directories
    above the target are made when missing; a member whose name ends with
    a slash becomes a directory, any other a file with the member's bytes. *)
Definition zip_extract (member : ZipInfo) (path : string) : M unit :=
  let arcname := List.filter (λ x, negb (invalid_path_part x)) (str_split sep (filename member)) in
  let base := parse_path path in
  let targetpath :=
    normpath_pp {| p_abs := p_abs base; p_comps := p_comps base ++ arcname; p_slash := false |} in
  let upperdirs :=
    {| p_abs := p_abs targetpath; p_comps := removelast (p_comps targetpath); p_slash := false |} in
  λ s,
    (when ((p_abs upperdirs || negb (Nat.eqb (length (p_comps upperdirs)) 0))
           && negb (exists_pp s upperdirs))
       (os_makedirs_pp upperdirs);;
     if String.eqb (filename member) "" then raise IndexError
     else if endswith_char (filename member) sep then
       λ s', when (negb (isdir_pp s' targetpath)) (mkdir_pp targetpath) s'
     else write_pp targetpath (file_data member)) s.

(** ** shutil *)

Definition shutil_basename (p : string) : string := os_path_basename (str_rstrip sep p).

Definition samefile (s : state) (src dst : string) : bool :=
  match resolve s src, resolve s dst with
  | Ok (k1, Some _), Ok (k2, Some _) => bool_decide (k1 = k2)
  | _, _ => false
  end.

Definition destinsrc (s : state) (src dst : string) : bool :=
  match resolve s src, resolve s dst with
  | Ok (ks, _), Ok (kd, _) => under_or_eq ks kd
  | _, _ => false
  end.

(** [try: os.rename(src, real_dst) except OSError: ...].  The handler copies
    and deletes, which is for a destination on another file system; on this
    one it fails where the rename failed, with the error of moving a
    directory into itself told apart. *)
Definition rename_or_copy (src dst real_dst : string) : M unit := λ s,
  match os_rename src real_dst s with
  | (Ok tt, s') => (Ok tt, s')
  | (Err e, s') =>
      if isdir_pp s' (parse_path src) && destinsrc s' src dst
      then (Err (ShutilError "Cannot move a directory into itself"), s')
      else (Err e, s')
  end.

Definition shutil_move (src dst : string) : M unit := λ s,
  if isdir_pp s (parse_path dst) then
    if samefile s src dst then os_rename src dst s
    else
      let real_dst := os_path_join dst (shutil_basename src) in
      if exists_pp s (parse_path real_dst)
      then (Err (ShutilError "Destination path already exists"), s)
      else rename_or_copy src dst real_dst s
  else rename_or_copy src dst dst s.

Definition lift {A : Type} (r : result A) : M A := λ s, (r, s).

(** ** The script *)

Record Arguments := {
  wacz_path : string;
  target_path : string
}.

Definition create_directory_structure (harvest_path : string) : M unit :=
  os_mkdir harvest_path;;
  let logs_path := os_path_join harvest_path "logs" in
  os_mkdir logs_path;;
  let cdx_path := os_path_join logs_path "cdx" in
  os_mkdir cdx_path;;
  let crawl_path := os_path_join logs_path "crawl" in
  os_mkdir crawl_path.

Definition extract_from_to (wacz_zip : ZipFile) (from_path to_path : string) : M unit :=
  for_each (filelist wacz_zip) (λ zip_info,
    when (startswith (filename zip_info) from_path)
      (zip_extract zip_info to_path;;
       let filename_without_path := (os_path_split (filename zip_info)).2 in
       shutil_move (os_path_join to_path (filename zip_info))
                   (os_path_join to_path filename_without_path);;
       os_rmdir (os_path_join to_path from_path))).

Definition extract_warcs (wacz_zip : ZipFile) (harvest_path harvest_name : string) : M unit :=
  let ZIP_PATH := "archive/" in
  extract_from_to wacz_zip ZIP_PATH harvest_path;;
  let data_warc_path := os_path_join harvest_path "data.warc.gz" in
  let correct_warc_path := os_path_join harvest_path (harvest_name +:+ ".warc.gz") in
  present ← os_path_exists data_warc_path;
  when present (os_rename data_warc_path correct_warc_path).

(** [extract_indexes]; the script has the call to it commented out. *)
Definition extract_indexes (wacz_zip : ZipFile) (harvest_path : string) : M unit :=
  let ZIP_PATH := "indexes/" in
  let path := os_path_join harvest_path "logs/cdxj" in
  extract_from_to wacz_zip ZIP_PATH path.

Section Script.

(** [json.loads]; [None] when it raises [JSONDecodeError]. *)
Variable json_loads : bytes → option pyval.

(** [str(v)] of a value that is not a string. *)
Variable py_str : pyval → string.

(** [f"{v}"] *)
Definition py_format (v : pyval) : string :=
  match v with
  | PStr s => s
  | _ => py_str v
  end.

Definition get_harvest_name (wacz_zip : ZipFile) (harvest_metadata : HarvestMetadata) : string :=
  let prefix := HARVEST_NAME_PREFIX in
  let date := date (required harvest_metadata) in
  let filename := os_path_basename (zip_filename wacz_zip) in
  let filename := str_split_head "." filename in
  prefix +:+ "-" +:+ py_format date +:+ "-" +:+ filename.

Definition get_harvest_metadata (wacz_zip : ZipFile) : result HarvestMetadata :=
  match zip_read wacz_zip "datapackage.json" with
  | Err e => Err e
  | Ok datapackage_data =>
      match json_loads datapackage_data with
      | None => Err JSONDecodeError
      | Some datapackage_object => HarvestMetadata_init datapackage_object
      end
  end.

(** [print(f"{label}: {v}", file=info_file)] when [v] is true. *)
Definition optional_line (label : string) (v : pyval) : list string :=
  if truthy v then [label +:+ ": " +:+ py_format v] else [].

(** The lines printed to [info.txt], in order; [today] is what
    [datetime.now().isoformat()] returned. *)
Definition info_lines (harvest_metadata : HarvestMetadata)
    (wacz_file_name harvest_name today : string) : list string :=
  [ "info: this harvest was extracted from WACZ file";
    "original_file: " +:+ wacz_file_name;
    "converted_with: " +:+ SCRIPT_NAME +:+ " " +:+ SCRIPT_VERSION;
    "conversion_date: " +:+ today;
    "harvest_name: " +:+ harvest_name;
    "wacz_created: " +:+ py_format (full_date (required harvest_metadata)) ]
  ++ optional_line "wacz_title" (title (optional harvest_metadata))
  ++ optional_line "wacz_software" (software (optional harvest_metadata))
  ++ optional_line "wacz_main_page_url" (main_page_url (optional harvest_metadata))
  ++ optional_line "wacz_main_page_date" (main_page_date (optional harvest_metadata)).

(** What [print] writes for each line: the line and a newline. *)
Definition print_all (lines : list string) : string :=
  foldr (λ l acc, l +:+ String "010"%char acc) EmptyString lines.

Definition create_info_file (harvest_metadata : HarvestMetadata)
    (harvest_path wacz_file_name harvest_name today : string) : M unit :=
  let info_file_path := os_path_join harvest_path "logs/crawl/info.txt" in
  open_write info_file_path
    (utf8 (print_all (info_lines harvest_metadata wacz_file_name harvest_name today))).

(** [members] is what the archive at [args.wacz_path] holds; [wacz_zip] is
    the handle [ZipFile(args.wacz_path)] gives on it. *)
Definition prepare_and_run (args : Arguments) (members : list ZipInfo) (today : string) : M unit :=
  let wacz_zip := {| zip_filename := wacz_path args; filelist := members |} in
  harvest_metadata ← lift (get_harvest_metadata wacz_zip);
  let harvest_name := get_harvest_name wacz_zip harvest_metadata in
  let harvest_path := os_path_join (target_path args) harvest_name in
  create_directory_structure harvest_path;;
  extract_warcs wacz_zip harvest_path harvest_name;;
  create_info_file harvest_metadata harvest_path (os_path_basename (wacz_path args))
    harvest_name today.

End Script.

(** * Notions the statements use *)

(** The non-empty names between the separators of a path. *)
Definition comps (p : string) : list string := List.filter nonempty (str_split sep p).



(** A single name: not empty, no separator, neither [.] nor [..], and one
    a directory takes: no NUL character, at most [NAME_MAX] bytes. *)
Definition plain_name (c : string) : bool :=
  negb (str_contains sep c) && nonempty c
  && negb (String.eqb c ".") && negb (String.eqb c "..")
  && valid_name c.

(** The paths [create_directory_structure] passes to [os.mkdir], in the
    order of the calls. *)
Definition skeleton_paths (harvest_path : string) : list string :=
  let logs_path := os_path_join harvest_path "logs" in
  [ harvest_path; logs_path; os_path_join logs_path "cdx"; os_path_join logs_path "crawl" ].

(** The name of a member below [archive/], the prefix taken off. *)
Definition member_name (zi : ZipInfo) : string := str_drop 8 (filename zi).

(** A member below [archive/] lies directly in it, and no directory of the
    destination has its name. *)
Definition flat_member (m : gmap key node) (root : key) (zi : ZipInfo) : Prop :=
  startswith (filename zi) "archive/" = true →
  plain_name (member_name zi) = true
  ∧ member_name zi ≠ "archive"
  ∧ m !! (root ++ [member_name zi]) ≠ Some Dir.

(** The destination after the relocation: every member below [archive/] is
    a file under its own name, a later member replacing an earlier one of
    the same name. *)
Fixpoint relocated (root : key) (l : list ZipInfo) (m : gmap key node) : gmap key node :=
  match l with
  | [] => m
  | zi :: l' =>
      if startswith (filename zi) "archive/"
      then relocated root l' (<[root ++ [member_name zi] := File (file_data zi)]> m)
      else relocated root l' m
  end.

(** A JSON value that is neither a string nor an array nor an object. *)
Definition is_scalar (v : pyval) : bool :=
  match v with
  | PNone | PBool _ | PInt _ | PFloat _ => true
  | _ => false
  end.

(** No member of the list has the name [name]. *)
Definition no_member_named (name : string) (l : list ZipInfo) : bool :=
  forallb (λ zi, negb (String.eqb (filename zi) name)) l.

(** No member of the list has a name that starts with [prefix]. *)
Definition no_member_below (prefix : string) (l : list ZipInfo) : bool :=
  forallb (λ zi, negb (startswith (filename zi) prefix)) l.

(** No directory is at [k]. *)
Definition not_a_directory (m : gmap key node) (k : key) : bool :=
  match m !! k with
  | Some Dir => false
  | _ => true
  end.

(** [flat_member], decided. *)
Definition flat_memberb (m : gmap key node) (root : key) (zi : ZipInfo) : bool :=
  implb (startswith (filename zi) "archive/")
    (plain_name (member_name zi)
     && negb (String.eqb (member_name zi) "archive")
     && not_a_directory m (root ++ [member_name zi])).







(** The newline [print] ends a line with. *)
Definition newline : ascii := "010"%char.

(** No line of the list holds a newline. *)
Definition single_lines (lines : list string) : bool :=
  forallb (λ l, negb (str_contains newline l)) lines.

(** * Inputs the statements are tried on *)

Definition example_manifest : gmap string pyval :=
  {[ "created" := PStr "2024-03-15T10:00:00Z"; "title" := PStr "Example Site" ]}.

Definition to_bytes (s : string) : bytes := map byte_of_ascii (list_ascii_of_string s).

Definition example_members : list ZipInfo :=
  [ {| filename := "datapackage.json"; file_data := to_bytes "{}" |};
    {| filename := "archive/data.warc.gz"; file_data := to_bytes "WARC/1.1" |};
    {| filename := "indexes/index.cdx"; file_data := to_bytes "cdx" |} ].

Definition example_zip : ZipFile :=
  {| zip_filename := "in/crawl-001.wacz"; filelist := example_members |}.

Definition example_loads : bytes → option pyval := λ _, Some (PDict example_manifest).

Definition example_str : pyval → string := λ _, "?".

(** A manifest whose date is written with slashes. *)
Definition slash_manifest : gmap string pyval :=
  {[ "created" := PStr "2024/03/15T10:00:00Z" ]}.

Definition slash_loads : bytes → option pyval := λ _, Some (PDict slash_manifest).

Definition example_args : Arguments :=
  {| wacz_path := "in/crawl-001.wacz"; target_path := "out" |}.

(** A file system with the directories [/in] and [/out]; the process runs
    in the root directory. *)
Definition example_state : state :=
  {| fs := {[ [] := Dir; ["in"] := Dir; ["out"] := Dir ]}; cwd := []; log := [] |}.

Definition untitled_manifest : gmap string pyval := {[ "title" := PStr "No date" ]}.

Definition example_metadata : HarvestMetadata :=
  {| required := {| full_date := PStr "2024-03-15T10:00:00Z"; date := PStr "2024-03" |};
     optional := {| title := PStr "Example Site"; software := PNone;
                    main_page_url := PNone; main_page_date := PNone |} |}.

Definition example_root : key := ["out"; "Linkra-2024-03-crawl-001"].

(** [example_state] with the directories of a harvest in place. *)
Definition skeleton_state : state :=
  {| fs := {[ [] := Dir; ["in"] := Dir; ["out"] := Dir;
              example_root := Dir;
              example_root ++ ["logs"] := Dir;
              example_root ++ ["logs"; "cdx"] := Dir;
              example_root ++ ["logs"; "crawl"] := Dir ]};
     cwd := [];
     log := [] |}.




Definition example_path : string := "out/Linkra-2024-03-crawl-001".

Definition example_name : string := "Linkra-2024-03-crawl-001".











Definition other_member : ZipInfo :=
  {| filename := "archive/other.warc.gz"; file_data := to_bytes "new" |}.

(** [skeleton_state] with [data.warc.gz] and a file of the name it is to get. *)
Definition renamed_taken_state : state :=
  {| fs := <[example_root ++ ["Linkra-2024-03-crawl-001.warc.gz"] := File (to_bytes "old")]>
             (<[example_root ++ ["data.warc.gz"] := File (to_bytes "WARC/1.1")]>
                (fs skeleton_state));
     cwd := [];
     log := [] |}.








(** An archive whose capture file lies in a subdirectory of [archive/]. *)
Definition nested_members : list ZipInfo :=
  [ {| filename := "datapackage.json"; file_data := to_bytes "{}" |};
    {| filename := "archive/2024/data.warc.gz"; file_data := to_bytes "WARC/1.1" |};
    {| filename := "archive/other.warc.gz"; file_data := to_bytes "WARC/1.0" |} ].

Definition nested_moved : result unit * state :=
  extract_from_to {| zip_filename := "in/crawl-001.wacz"; filelist := nested_members |}
    "archive/" example_path skeleton_state.

Definition nested_run : result unit * state :=
  prepare_and_run example_loads example_str example_args nested_members
    "2026-01-01T00:00:00" example_state.

(** An archive with a member for the directory [archive/] itself. *)
Definition marker_members : list ZipInfo :=
  [ {| filename := "datapackage.json"; file_data := to_bytes "{}" |};
    {| filename := "archive/"; file_data := [] |};
    {| filename := "archive/data.warc.gz"; file_data := to_bytes "WARC/1.1" |} ].

Definition marker_moved : result unit * state :=
  extract_from_to {| zip_filename := "in/crawl-001.wacz"; filelist := marker_members |}
    "archive/" example_path skeleton_state.

Definition marker_run : result unit * state :=
  prepare_and_run example_loads example_str example_args marker_members
    "2026-01-01T00:00:00" example_state.

Definition undecodable : bytes → option pyval := λ _, None.



Definition marker_member : ZipInfo := {| filename := "archive/"; file_data := [] |}.

(** [example_state] with a regular file [notes] in the root directory. *)
Definition file_state : state :=
  {| fs := <[ ["notes"] := File (to_bytes "text") ]> (fs example_state);
     cwd := [];
     log := [] |}.

(** [skeleton_state] with a directory where [info.txt] is to be written. *)
Definition info_dir_state : state :=
  {| fs := <[ example_root ++ ["logs"; "crawl"; "info.txt"] := Dir ]> (fs skeleton_state);
     cwd := [];
     log := [] |}.


(** [example_state] with the harvest directory and nothing in it. *)
Definition bare_state : state :=
  {| fs := <[ example_root := Dir ]> (fs example_state); cwd := []; log := [] |}.



(** [c] written [n] times. *)
Fixpoint str_repeat (n : nat) (c : ascii) : string :=
  match n with
  | O => EmptyString
  | S k => String c (str_repeat k c)
  end.

(** A harvest name of 255 characters: a directory takes it, and does not
    take it with [.warc.gz] after it. *)
Definition long_name : string := "Linkra-2024-03-" +:+ str_repeat 240 "a".

(** A manifest whose date has a NUL character among its first seven. *)
Definition nul_manifest : gmap string pyval :=
  {[ "created" := PStr (String "2" (String NUL "024-03-15")) ]}.

Definition nul_loads : bytes → option pyval := λ _, Some (PDict nul_manifest).

(** * Properties *)

(** ** Strings *)

Lemma append_cons (a : ascii) (s t : string) : String a s +:+ t = String a (s +:+ t).
Proof. reflexivity. Qed.

Lemma append_nil_l (t : string) : EmptyString +:+ t = t.
Proof. reflexivity. Qed.

Lemma str_take_drop (n : nat) (s : string) : str_take n s +:+ str_drop n s = s.
Proof.
  revert s. induction n as [|n IH]; intros [|a r]; simpl; try reflexivity.
  rewrite append_cons. f_equal. apply IH.
Qed.

Lemma str_take_length (n : nat) (s : string) :
  String.length (str_take n s) = Nat.min n (String.length s).
Proof.
  revert s. induction n as [|n IH]; intros [|a r]; simpl; try reflexivity.
  by rewrite IH.
Qed.

Lemma str_take_all (n : nat) (s : string) : String.length s ≤ n → str_take n s = s.
Proof.
  revert s. induction n as [|n IH]; intros [|a r]; simpl; intros Hlen; try reflexivity.
  - lia.
  - f_equal. apply IH. lia.
Qed.

Lemma str_contains_app (c : ascii) (s t : string) :
  str_contains c (s +:+ t) = str_contains c s || str_contains c t.
Proof.
  induction s as [|a r IH]; [reflexivity|].
  rewrite append_cons. simpl. rewrite IH. by rewrite orb_assoc.
Qed.

Lemma str_contains_take (c : ascii) (n : nat) (s : string) :
  str_contains c s = false → str_contains c (str_take n s) = false.
Proof.
  revert s. induction n as [|n IH]; intros [|a r]; simpl; try reflexivity.
  intros [Ha Hr]%orb_false_elim. rewrite Ha. simpl. by apply IH.
Qed.

(** The text before the first [c] has no [c], and what follows it is empty
    or starts with [c]. *)
Lemma str_split_head_spec (c : ascii) (s : string) :
  str_contains c (str_split_head c s) = false ∧
  ∃ rest, s = str_split_head c s +:+ rest ∧ (rest = EmptyString ∨ ∃ r, rest = String c r).
Proof.
  induction s as [|a r [IH1 (rest & IH2 & IH3)]]; simpl.
  - split; [reflexivity|]. exists EmptyString. auto.
  - destruct (Ascii.eqb_spec a c) as [->|Hne]; simpl.
    + split; [reflexivity|]. exists (String c r). eauto.
    + split.
      * rewrite IH1. by destruct (Ascii.eqb_spec a c).
      * exists rest. split; [|exact IH3].
        rewrite append_cons. by rewrite <- IH2.
Qed.

Lemma str_contains_split_head (c d : ascii) (s : string) :
  str_contains d s = false → str_contains d (str_split_head c s) = false.
Proof.
  induction s as [|a r IH]; simpl; [reflexivity|].
  intros [Ha Hr]%orb_false_elim.
  destruct (Ascii.eqb a c); simpl; [reflexivity|].
  rewrite Ha. simpl. by apply IH.
Qed.

Lemma rfind_succ_drop (c : ascii) (s : string) :
  str_contains c (str_drop (rfind_succ c s) s) = false.
Proof.
  induction s as [|a r IH]; simpl; [reflexivity|].
  destruct (rfind_succ c r) as [|i] eqn:Hi.
  - simpl in IH. destruct (Ascii.eqb a c) eqn:Ha; simpl.
    + destruct r; exact IH.
    + rewrite Ha. simpl. destruct r; exact IH.
  - exact IH.
Qed.

(** The base name holds no separator. *)
Lemma os_path_basename_no_sep (p : string) :
  str_contains sep (os_path_basename p) = false.
Proof. apply rfind_succ_drop. Qed.

(** The base name is what follows the directory part of the path. *)
Lemma os_path_basename_suffix (p : string) :
  ∃ dir, p = dir +:+ os_path_basename p.
Proof.
  exists (str_take (rfind_succ sep p) p). symmetry. apply str_take_drop.
Qed.

Lemma rfind_succ_take (c : ascii) (s : string) (i : nat) :
  rfind_succ c s = S i → endswith_char (str_take (S i) s) c = true.
Proof.
  revert i. induction s as [|a r IH]; intros i; [discriminate|].
  cbn [rfind_succ]. destruct (rfind_succ c r) as [|j] eqn:Hj.
  - destruct (Ascii.eqb a c) eqn:Ha; [|discriminate]. intros [= <-]. exact Ha.
  - intros [= <-]. specialize (IH j eq_refl).
    change (str_take (S (S j)) (String a r)) with (String a (str_take (S j) r)).
    destruct (str_take (S j) r) as [|b w]; [discriminate IH | exact IH].
Qed.

(** What precedes the base name in a path is empty or ends with a
    separator. *)
Lemma os_path_basename_after_sep (p : string) :
  ∃ dir, p = dir +:+ os_path_basename p
         ∧ (dir = EmptyString ∨ endswith_char dir sep = true).
Proof.
  exists (str_take (rfind_succ sep p) p). split.
  - symmetry. apply str_take_drop.
  - destruct (rfind_succ sep p) as [|i] eqn:Hi.
    + left. by destruct p.
    + right. by apply rfind_succ_take.
Qed.

(** ** Metadata and the harvest name *)

Lemma RequiredHarvestMetadata_init_str (obj : gmap string pyval) (created : string) :
  obj !! "created" = Some (PStr created) →
  RequiredHarvestMetadata_init (PDict obj)
  = Ok {| full_date := PStr created; date := PStr (str_take 7 created) |}.
Proof.
  intros Hc. unfold RequiredHarvestMetadata_init, py_in, py_getitem.
  rewrite Hc. rewrite bool_decide_eq_true_2 by eauto. reflexivity.
Qed.

Lemma get_or_None_dict (obj : gmap string pyval) (k : string) :
  get_or_None (PDict obj) k = Ok (default PNone (obj !! k)).
Proof.
  unfold get_or_None, py_in, py_getitem.
  destruct (obj !! k) as [v|] eqn:Hk; reflexivity.
Qed.

Lemma OptionalHarvestMetadata_init_dict (obj : gmap string pyval) :
  OptionalHarvestMetadata_init (PDict obj)
  = Ok {| title := default PNone (obj !! "title");
          software := default PNone (obj !! "software");
          main_page_url := default PNone (obj !! "mainPageUrl");
          main_page_date := default PNone (obj !! "mainPageDate") |}.
Proof.
  unfold OptionalHarvestMetadata_init. by rewrite !get_or_None_dict.
Qed.

Lemma HarvestMetadata_init_str (obj : gmap string pyval) (created : string) :
  obj !! "created" = Some (PStr created) →
  HarvestMetadata_init (PDict obj)
  = Ok {| required := {| full_date := PStr created; date := PStr (str_take 7 created) |};
          optional := {| title := default PNone (obj !! "title");
                         software := default PNone (obj !! "software");
                         main_page_url := default PNone (obj !! "mainPageUrl");
                         main_page_date := default PNone (obj !! "mainPageDate") |} |}.
Proof.
  intros Hc. unfold HarvestMetadata_init.
  by rewrite (RequiredHarvestMetadata_init_str _ _ Hc), OptionalHarvestMetadata_init_dict.
Qed.

Lemma RequiredHarvestMetadata_init_missing (obj : gmap string pyval) :
  obj !! "created" = None →
  RequiredHarvestMetadata_init (PDict obj) = Err (ValueError missing_created_message).
Proof.
  intros Hc. unfold RequiredHarvestMetadata_init, py_in. by rewrite Hc.
Qed.

(** C1: for an archive whose manifest has a string under "created", the
    date token is the first 7 characters of [full_date] (a prefix of it, 7
    long or all of it), and the harvest name is the prefix "Linkra", a
    hyphen, the date token, a hyphen and the base name of the archive path
    cut at its first dot: the cut part has no dot and what it leaves out is
    empty or starts with a dot; the base name is what follows the last
    separator of the path: it holds no separator, and what precedes it in
    the path is empty or ends with a separator. *)
Theorem harvest_name_composed (json_loads : bytes → option pyval) (py_str : pyval → string)
    (wacz_zip : ZipFile) (datapackage_data : bytes) (obj : gmap string pyval)
    (created : string) :
  zip_read wacz_zip "datapackage.json" = Ok datapackage_data →
  json_loads datapackage_data = Some (PDict obj) →
  obj !! "created" = Some (PStr created) →
  ∃ hm token stem,
    get_harvest_metadata json_loads wacz_zip = Ok hm ∧
    full_date (required hm) = PStr created ∧
    date (required hm) = PStr token ∧
    token = str_take 7 created ∧
    String.length token = Nat.min 7 (String.length created) ∧
    (∃ rest, created = token +:+ rest) ∧
    get_harvest_name py_str wacz_zip hm
      = HARVEST_NAME_PREFIX +:+ "-" +:+ token +:+ "-" +:+ stem ∧
    stem = str_split_head "." (os_path_basename (zip_filename wacz_zip)) ∧
    str_contains "." stem = false ∧
    (∃ rest, os_path_basename (zip_filename wacz_zip) = stem +:+ rest
             ∧ (rest = EmptyString ∨ ∃ r, rest = String "." r)) ∧
    str_contains sep (os_path_basename (zip_filename wacz_zip)) = false ∧
    (∃ dir, zip_filename wacz_zip = dir +:+ os_path_basename (zip_filename wacz_zip)
            ∧ (dir = EmptyString ∨ endswith_char dir sep = true)).
Proof.
  intros Hread Hjson Hc.
  destruct (str_split_head_spec "." (os_path_basename (zip_filename wacz_zip)))
    as [Hnodot Hrest].
  eexists _, (str_take 7 created), _.
  split.
  { unfold get_harvest_metadata. rewrite Hread, Hjson.
    apply (HarvestMetadata_init_str _ _ Hc). }
  do 3 (split; [reflexivity|]).
  split; [apply str_take_length|].
  split; [exists (str_drop 7 created); symmetry; apply str_take_drop|].
  do 2 (split; [reflexivity|]).
  split; [exact Hnodot|]. split; [exact Hrest|].
  split; [apply os_path_basename_no_sep | apply os_path_basename_after_sep].
Qed.

Lemma harvest_name_composed_witness :
  ∃ hm token stem,
    get_harvest_metadata example_loads example_zip = Ok hm ∧
    full_date (required hm) = PStr "2024-03-15T10:00:00Z" ∧
    date (required hm) = PStr token ∧
    token = str_take 7 "2024-03-15T10:00:00Z" ∧
    String.length token = Nat.min 7 (String.length "2024-03-15T10:00:00Z") ∧
    (∃ rest, "2024-03-15T10:00:00Z" = token +:+ rest) ∧
    get_harvest_name example_str example_zip hm
      = HARVEST_NAME_PREFIX +:+ "-" +:+ token +:+ "-" +:+ stem ∧
    stem = str_split_head "." (os_path_basename (zip_filename example_zip)) ∧
    str_contains "." stem = false ∧
    (∃ rest, os_path_basename (zip_filename example_zip) = stem +:+ rest
             ∧ (rest = EmptyString ∨ ∃ r, rest = String "." r)) ∧
    str_contains sep (os_path_basename (zip_filename example_zip)) = false ∧
    (∃ dir, zip_filename example_zip = dir +:+ os_path_basename (zip_filename example_zip)
            ∧ (dir = EmptyString ∨ endswith_char dir sep = true)).
Proof.
  apply (harvest_name_composed example_loads example_str example_zip
           (to_bytes "{}") example_manifest "2024-03-15T10:00:00Z");
    reflexivity.
Defined.

(** The scenario of the specification: [crawl-001.wacz] created in March
    2024 is named [Linkra-2024-03-crawl-001]. *)
Example harvest_name_scenario :
  match get_harvest_metadata example_loads example_zip with
  | Ok hm => get_harvest_name example_str example_zip hm
  | Err _ => EmptyString
  end = "Linkra-2024-03-crawl-001".
Proof. reflexivity. Qed.

Lemma get_harvest_name_separator (py_str : pyval → string) (wacz_zip : ZipFile)
    (hm : HarvestMetadata) (token : string) :
  date (required hm) = PStr token →
  str_contains sep (get_harvest_name py_str wacz_zip hm) = str_contains sep token.
Proof.
  intros Hd. unfold get_harvest_name. rewrite Hd. unfold py_format.
  rewrite !str_contains_app.
  rewrite (str_contains_split_head _ _ _ (os_path_basename_no_sep _)).
  change (str_contains sep HARVEST_NAME_PREFIX) with false.
  change (str_contains sep "-") with false.
  by rewrite !orb_false_r.
Qed.

(** C9, as the code has it: the harvest name holds a path separator exactly
    when the first 7 characters of the "created" string hold one; with none
    there, the name has none. *)
Theorem harvest_name_separator_free (json_loads : bytes → option pyval)
    (py_str : pyval → string) (wacz_zip : ZipFile) (datapackage_data : bytes)
    (obj : gmap string pyval) (created : string) :
  zip_read wacz_zip "datapackage.json" = Ok datapackage_data →
  json_loads datapackage_data = Some (PDict obj) →
  obj !! "created" = Some (PStr created) →
  ∃ hm,
    get_harvest_metadata json_loads wacz_zip = Ok hm ∧
    str_contains sep (get_harvest_name py_str wacz_zip hm)
      = str_contains sep (str_take 7 created) ∧
    (str_contains sep (str_take 7 created) = false →
     str_contains sep (get_harvest_name py_str wacz_zip hm) = false).
Proof.
  intros Hread Hjson Hc. eexists. split.
  { unfold get_harvest_metadata. rewrite Hread, Hjson.
    apply (HarvestMetadata_init_str _ _ Hc). }
  rewrite (get_harvest_name_separator _ _ _ (str_take 7 created)) by reflexivity.
  split; [reflexivity | trivial].
Qed.

Lemma harvest_name_separator_free_witness :
  ∃ hm,
    get_harvest_metadata example_loads example_zip = Ok hm ∧
    str_contains sep (get_harvest_name example_str example_zip hm)
      = str_contains sep (str_take 7 "2024-03-15T10:00:00Z") ∧
    (str_contains sep (str_take 7 "2024-03-15T10:00:00Z") = false →
     str_contains sep (get_harvest_name example_str example_zip hm) = false).
Proof.
  apply (harvest_name_separator_free example_loads example_str example_zip
           (to_bytes "{}") example_manifest "2024-03-15T10:00:00Z");
    reflexivity.
Defined.

(** A "created" string written with slashes puts a separator into the name. *)
Lemma harvest_name_with_separator :
  ∃ hm,
    get_harvest_metadata slash_loads example_zip = Ok hm ∧
    get_harvest_name example_str example_zip hm = "Linkra-2024/03-crawl-001" ∧
    str_contains sep (get_harvest_name example_str example_zip hm) = true.
Proof. eexists. repeat split; reflexivity. Qed.

(** C10: a "created" string shorter than 7 characters is accepted and is the
    date token as a whole; and any string at all is accepted, whatever its
    shape. *)
Theorem short_created_accepted (obj : gmap string pyval) (created : string) :
  obj !! "created" = Some (PStr created) →
  String.length created < 7 →
  (∃ r, RequiredHarvestMetadata_init (PDict obj) = Ok r
        ∧ full_date r = PStr created ∧ date r = PStr created)
  ∧ (∀ any : string,
       ∃ r, RequiredHarvestMetadata_init (PDict (<["created" := PStr any]> obj)) = Ok r
            ∧ full_date r = PStr any).
Proof.
  intros Hc Hlen. split.
  - eexists. split; [apply (RequiredHarvestMetadata_init_str _ _ Hc)|].
    split; [reflexivity|]. cbn [date]. f_equal. apply str_take_all. lia.
  - intros any. eexists.
    split; [apply RequiredHarvestMetadata_init_str, lookup_insert_eq | reflexivity].
Qed.

Lemma short_created_accepted_witness :
  ({[ "created" := PStr "2024" ]} : gmap string pyval) !! "created" = Some (PStr "2024")
  ∧ String.length "2024" < 7
  ∧ (∃ r, RequiredHarvestMetadata_init (PDict {[ "created" := PStr "2024" ]}) = Ok r
          ∧ full_date r = PStr "2024" ∧ date r = PStr "2024").
Proof.
  split; [reflexivity|]. split; [simpl; lia|].
  apply (short_created_accepted {[ "created" := PStr "2024" ]} "2024");
    [reflexivity | simpl; lia].
Defined.

(** ** Sequencing *)

Lemma bind_ok {A B : Type} (m : M A) (f : A → M B) (s s' : state) (a : A) :
  m s = (Ok a, s') → (m ≫= f) s = f a s'.
Proof. intros H. unfold mbind, M_bind. by rewrite H. Qed.

Lemma bind_err {A B : Type} (m : M A) (f : A → M B) (s s' : state) (e : exn) :
  m s = (Err e, s') → (m ≫= f) s = (Err e, s').
Proof. intros H. unfold mbind, M_bind. by rewrite H. Qed.

(** A sequence that succeeds has a first part that succeeds. *)
Lemma bind_ok_inv {A B : Type} (m : M A) (f : A → M B) (s s' : state) (b : B) :
  (m ≫= f) s = (Ok b, s') → ∃ a s1, m s = (Ok a, s1) ∧ f a s1 = (Ok b, s').
Proof.
  unfold mbind, M_bind. destruct (m s) as [[a|e] s1]; [eauto | discriminate].
Qed.

(** A run that returned [a] is the pair of [a] and the state it ended in. *)
Lemma run_ok_eta {A : Type} (r : result A * state) (a : A) : r.1 = Ok a → r = (Ok a, r.2).
Proof. destruct r as [x s]. simpl. by intros ->. Qed.

(** ** Missing "created" *)

(** C2: when the manifest of the archive has no "created" key the
    conversion raises the [ValueError] that reports the missing property,
    and the state it stops in is the state it started from: the same
    directories and files, and no call that changes the file system made. *)
Theorem missing_created_aborts (json_loads : bytes → option pyval) (py_str : pyval → string)
    (args : Arguments) (members : list ZipInfo) (today : string) (s : state)
    (datapackage_data : bytes) (obj : gmap string pyval) :
  zip_read {| zip_filename := wacz_path args; filelist := members |} "datapackage.json"
    = Ok datapackage_data →
  json_loads datapackage_data = Some (PDict obj) →
  obj !! "created" = None →
  prepare_and_run json_loads py_str args members today s
    = (Err (ValueError missing_created_message), s).
Proof.
  intros Hread Hjson Hc. unfold prepare_and_run.
  apply bind_err. unfold lift, get_harvest_metadata.
  rewrite Hread, Hjson. unfold HarvestMetadata_init.
  by rewrite (RequiredHarvestMetadata_init_missing _ Hc).
Qed.

Lemma missing_created_aborts_witness :
  prepare_and_run (λ _, Some (PDict untitled_manifest)) example_str example_args
    example_members "2026-01-01T00:00:00" example_state
  = (Err (ValueError missing_created_message), example_state).
Proof.
  apply (missing_created_aborts _ _ example_args example_members _ _
           (to_bytes "{}") untitled_manifest); reflexivity.
Defined.

(** ** Paths *)

Lemma str_split_nonnil (c : ascii) (s : string) : str_split c s ≠ [].
Proof.
  destruct s as [|a r]; simpl; [done|].
  destruct (Ascii.eqb a c); [done|]. by destruct (str_split c r).
Qed.

Lemma str_split_app (c : ascii) (s t : string) :
  str_split c (s +:+ String c t) = str_split c s ++ str_split c t.
Proof.
  induction s as [|a r IH].
  - rewrite append_nil_l. simpl. by rewrite Ascii.eqb_refl.
  - rewrite append_cons. simpl. rewrite IH.
    destruct (Ascii.eqb a c); [reflexivity|].
    pose proof (str_split_nonnil c r) as Hnn.
    by destruct (str_split c r).
Qed.

Lemma append_assoc (s t u : string) : (s +:+ t) +:+ u = s +:+ (t +:+ u).
Proof.
  induction s as [|a r IH]; [reflexivity|].
  rewrite !append_cons. by rewrite IH.
Qed.

Lemma append_nil_r (s : string) : s +:+ EmptyString = s.
Proof.
  induction s as [|a r IH]; [reflexivity|]. rewrite append_cons. by rewrite IH.
Qed.

Lemma endswith_char_app (s t : string) (c : ascii) :
  t ≠ EmptyString → endswith_char (s +:+ t) c = endswith_char t c.
Proof.
  intros Ht. induction s as [|a r IH]; [reflexivity|].
  rewrite append_cons. simpl. rewrite IH.
  destruct (r +:+ t) eqn:Hrt; [|reflexivity].
  destruct r; [|discriminate]. by rewrite append_nil_l in Hrt.
Qed.

Lemma endswith_char_inv (s : string) (c : ascii) :
  endswith_char s c = true → ∃ s0, s = s0 +:+ String c EmptyString.
Proof.
  induction s as [|a r IH]; simpl; [discriminate|].
  destruct r as [|a' r'].
  - intros ->%Ascii.eqb_eq. by exists EmptyString.
  - intros [s0 Hs0]%IH. exists (String a s0). rewrite append_cons. by rewrite <- Hs0.
Qed.

Lemma startswith_app (s t : string) :
  s ≠ EmptyString → startswith (s +:+ t) "/" = startswith s "/".
Proof.
  intros Hs. destruct s as [|a r]; [done|]. by rewrite append_cons.
Qed.

Lemma comps_app_sep (s t : string) : comps (s +:+ String sep t) = comps s ++ comps t.
Proof. unfold comps. by rewrite str_split_app, List.filter_app. Qed.

Lemma comps_nil : comps EmptyString = [].
Proof. reflexivity. Qed.

(** What a path joined from a directory and a relative name parses to. *)
Lemma parse_path_join (a b : string) :
  startswith b "/" = false →
  p_abs (parse_path (os_path_join a b)) = p_abs (parse_path a)
  ∧ p_comps (parse_path (os_path_join a b)) = p_comps (parse_path a) ++ p_comps (parse_path b).
Proof.
  intros Hb. unfold os_path_join. rewrite Hb.
  assert (∀ p, p_comps (parse_path p) = comps p) as Hc by reflexivity.
  rewrite !Hc. simpl p_abs.
  destruct a as [|x a'].
  { split; [exact Hb | reflexivity]. }
  destruct (endswith_char (String x a') sep) eqn:Hend.
  - replace (String.eqb (String x a') "" || true) with true by by rewrite orb_true_r.
    split; [by apply startswith_app|].
    apply endswith_char_inv in Hend as [a0 Ha0]. rewrite Ha0.
    rewrite append_assoc. rewrite append_cons, append_nil_l.
    rewrite comps_app_sep.
    rewrite (comps_app_sep a0 EmptyString), comps_nil. by rewrite app_nil_r.
  - replace (String.eqb (String x a') "" || false) with false by reflexivity.
    split; [by apply startswith_app|].
    change ("/" +:+ b) with (String sep b). apply comps_app_sep.
Qed.

Lemma parse_path_join_slash (a b : string) :
  startswith b "/" = false → b ≠ EmptyString →
  p_slash (parse_path (os_path_join a b)) = endswith_char b sep.
Proof.
  intros Hb Hne. unfold os_path_join. rewrite Hb. simpl p_slash.
  destruct (String.eqb a "" || endswith_char a sep).
  - by apply endswith_char_app.
  - rewrite endswith_char_app; [|by destruct b].
    change ("/" +:+ b) with (String sep b). simpl. by destruct b.
Qed.

(** ** Walking the tree *)

Lemma walk_app (m : gmap key node) (cur : key) (xs ys : list string) :
  walk m cur (xs ++ ys)
  = match walk m cur xs with
    | Ok k => walk m k ys
    | Err e => Err e
    end.
Proof.
  revert cur. induction xs as [|x xs IH]; intros cur; simpl; [reflexivity|].
  destruct (m !! cur) as [[|c]|]; auto. destruct (too_long x); auto.
Qed.

(** A walk that ends well does not see a change at a place that held no
    directory. *)
Lemma walk_insert (m : gmap key node) (cur r k : key) (cs : list string) (v : node) :
  walk m cur cs = Ok r → m !! k ≠ Some Dir → walk (<[k := v]> m) cur cs = Ok r.
Proof.
  intros Hw Hk. revert cur Hw. induction cs as [|c cs IH]; intros cur; simpl; [done|].
  destruct (m !! cur) as [[|x]|] eqn:Hcur; try discriminate.
  destruct (too_long c); [discriminate|].
  intros Hw. rewrite lookup_insert_ne by congruence. rewrite Hcur. by apply IH.
Qed.

(** Every place a walk stepped from is a directory. *)
Lemma walk_snoc_dir (m : gmap key node) (cur r : key) (cs : list string) (c : string) :
  walk m cur (cs ++ [c]) = Ok r →
  ∃ k, walk m cur cs = Ok k ∧ m !! k = Some Dir ∧ r = step k c.
Proof.
  rewrite walk_app. destruct (walk m cur cs) as [k|e]; [|discriminate].
  simpl. destruct (m !! k) as [[|x]|] eqn:Hk; try discriminate.
  destruct (too_long c); [discriminate|].
  intros [= <-]. eauto.
Qed.

(** A walk that ends well met no name that is too long. *)
Lemma walk_too_long (m : gmap key node) (cur r : key) (cs : list string) :
  walk m cur cs = Ok r → existsb too_long cs = false.
Proof.
  revert cur. induction cs as [|c cs IH]; intros cur; simpl; [done|].
  destruct (m !! cur) as [[|x]|]; try discriminate.
  destruct (too_long c); [discriminate|]. apply IH.
Qed.

Lemma no_slash_id (p : ppath) : p_slash p = false → no_slash p = p.
Proof. destruct p as [a cs sl]. simpl. by intros ->. Qed.

(** A path that resolves does so without the slash it ends with. *)
Lemma resolve_pp_no_slash (s : state) (p : ppath) (r : key * option node) :
  resolve_pp s p = Ok r → resolve_pp s (no_slash p) = Ok r.
Proof.
  unfold resolve_pp, nul_path. cbn [no_slash p_abs p_comps p_slash].
  destruct (existsb has_nul (p_comps p)); [done|].
  destruct (negb (p_abs p) && Nat.eqb (length (p_comps p)) 0); [done|].
  destruct (walk _ _ _) as [k|e]; [|done].
  destruct (fs s !! k) as [[|c]|]; try done. by destruct (p_slash p).
Qed.

(** The slash matters for a regular file only. *)
Lemma resolve_pp_slash (s : state) (p : ppath) (k : key) (n : option node) :
  resolve_pp s (no_slash p) = Ok (k, n) → (∀ c, n ≠ Some (File c)) →
  resolve_pp s p = Ok (k, n).
Proof.
  unfold resolve_pp, nul_path. cbn [no_slash p_abs p_comps p_slash].
  destruct (existsb has_nul (p_comps p)); [done|].
  destruct (negb (p_abs p) && Nat.eqb (length (p_comps p)) 0); [done|].
  destruct (walk _ _ _) as [k'|e]; [|done].
  destruct (fs s !! k') as [[|c]|]; try done.
  intros [= <- <-] Hn. by destruct (Hn c).
Qed.

Lemma write_pp_ok (p : ppath) (content : bytes) (s : state) (k : key) (n : option node) :
  resolve_pp s p = Ok (k, n) → n ≠ Some Dir → p_slash p = false →
  write_pp p content s
  = (Ok tt, update s (<[k := File content]> (fs s)) (EvWrite k content)).
Proof.
  intros Hr%resolve_pp_no_slash Hn Hs. unfold write_pp. rewrite Hr, Hs.
  destruct n as [[|c]|]; done.
Qed.

(** ** The provenance file *)






(** ** Resolution and the calls that make things *)

Lemma resolve_pp_walk (s : state) (p : ppath) (k : key) (n : option node) :
  resolve_pp s p = Ok (k, n) →
  (negb (p_abs p) && Nat.eqb (length (p_comps p)) 0 = false)
  ∧ walk (fs s) (if p_abs p then [] else cwd s) (p_comps p) = Ok k
  ∧ fs s !! k = n.
Proof.
  unfold resolve_pp.
  destruct (nul_path p); [discriminate|].
  destruct (negb (p_abs p) && Nat.eqb (length (p_comps p)) 0); [discriminate|].
  destruct (walk _ _ _) as [k'|e]; [|discriminate].
  destruct (fs s !! k') as [[|c]|] eqn:Hk.
  - by intros [= <- <-].
  - destruct (p_slash p); [discriminate|]. by intros [= <- <-].
  - by intros [= <- <-].
Qed.

(** A path that resolves holds no NUL character. *)
Lemma resolve_pp_nul (s : state) (p : ppath) (r : key * option node) :
  resolve_pp s p = Ok r → nul_path p = false.
Proof. unfold resolve_pp. by destruct (nul_path p). Qed.

Lemma resolve_pp_dir (s : state) (p : ppath) (k : key) :
  nul_path p = false →
  (negb (p_abs p) && Nat.eqb (length (p_comps p)) 0 = false) →
  walk (fs s) (if p_abs p then [] else cwd s) (p_comps p) = Ok k →
  fs s !! k = Some Dir →
  resolve_pp s p = Ok (k, Some Dir).
Proof. intros Hn He Hw Hk. unfold resolve_pp. by rewrite Hn, He, Hw, Hk. Qed.

Lemma resolve_pp_free (s : state) (p : ppath) (k : key) :
  nul_path p = false →
  (negb (p_abs p) && Nat.eqb (length (p_comps p)) 0 = false) →
  walk (fs s) (if p_abs p then [] else cwd s) (p_comps p) = Ok k →
  fs s !! k = None →
  resolve_pp s p = Ok (k, None).
Proof. intros Hn He Hw Hk. unfold resolve_pp. by rewrite Hn, He, Hw, Hk. Qed.

(** A directory stays where it resolves when a place that held no directory
    is filled. *)
Lemma resolve_pp_dir_insert (s : state) (p : ppath) (r k : key) (v : node) (e : event) :
  resolve_pp s p = Ok (r, Some Dir) → fs s !! k ≠ Some Dir →
  resolve_pp (update s (<[k := v]> (fs s)) e) p = Ok (r, Some Dir).
Proof.
  intros Hp Hk. pose proof (resolve_pp_nul _ _ _ Hp) as Hn.
  apply resolve_pp_walk in Hp as (He & Hw & Hr).
  apply resolve_pp_dir; simpl; [exact Hn | exact He | by apply walk_insert |].
  rewrite lookup_insert_ne; [exact Hr | congruence].
Qed.

(** A relative name below a directory: the walk goes on from the directory. *)
Lemma resolve_join (s : state) (a b : string) (r : key) :
  resolve s a = Ok (r, Some Dir) → startswith b "/" = false →
  nul_path (parse_path b) = false →
  resolve s (os_path_join a b)
  = match walk (fs s) r (p_comps (parse_path b)) with
    | Err e => Err e
    | Ok k =>
        match fs s !! k with
        | Some (File c) =>
            if p_slash (parse_path (os_path_join a b)) then Err NotADirectoryError
            else Ok (k, Some (File c))
        | n => Ok (k, n)
        end
    end.
Proof.
  intros Ha Hb Hnb. pose proof (resolve_pp_nul _ _ _ Ha) as Hna.
  apply resolve_pp_walk in Ha as (He & Hw & Hr).
  destruct (parse_path_join a b Hb) as [Habs Hcomps].
  unfold resolve, resolve_pp, nul_path in *.
  rewrite Habs, Hcomps, walk_app, Hw, existsb_app, Hna, Hnb. cbn [orb].
  replace (negb (p_abs (parse_path a))
           && Nat.eqb (length (p_comps (parse_path a) ++ p_comps (parse_path b))) 0)
    with false; [reflexivity|].
  symmetry. rewrite length_app.
  destruct (p_abs (parse_path a)); [reflexivity|].
  destruct (p_comps (parse_path a)); [discriminate He | reflexivity].
Qed.

Lemma mkdir_pp_ok (p : ppath) (s : state) (k : key) :
  resolve_pp s p = Ok (k, None) →
  mkdir_pp p s = (Ok tt, update s (<[k := Dir]> (fs s)) (EvMkdir k)).
Proof. intros H%resolve_pp_no_slash. unfold mkdir_pp. by rewrite H. Qed.

Lemma mkdir_pp_exists (p : ppath) (s : state) : 
  exists_pp s p = true → mkdir_pp p s = (Err FileExistsError, s).
Proof.
  unfold exists_pp, mkdir_pp.
  destruct (resolve_pp s p) as [[k [n|]]|e] eqn:Hp; try done.
  by rewrite (resolve_pp_no_slash _ _ _ Hp).
Qed.


Lemma mkdir_pp_err (p : ppath) (s : state) (e : exn) :
  resolve_pp s (no_slash p) = Err e → mkdir_pp p s = (Err e, s).
Proof. intros H. unfold mkdir_pp. by rewrite H. Qed.

Lemma mkdir_pp_ok_inv (p : ppath) (s s' : state) :
  mkdir_pp p s = (Ok tt, s') →
  ∃ k, resolve_pp s p = Ok (k, None) ∧ s' = update s (<[k := Dir]> (fs s)) (EvMkdir k).
Proof.
  unfold mkdir_pp.
  destruct (resolve_pp s (no_slash p)) as [[k [n|]]|e] eqn:Hp; try discriminate.
  intros [= <-]. exists k. split; [|reflexivity]. by apply resolve_pp_slash.
Qed.

(** After [mkdir] the path is a directory. *)
Lemma mkdir_pp_isdir (p : ppath) (s s' : state) :
  mkdir_pp p s = (Ok tt, s') → isdir_pp s' p = true.
Proof.
  intros (k & Hr & ->)%mkdir_pp_ok_inv.
  pose proof (resolve_pp_nul _ _ _ Hr) as Hn.
  apply resolve_pp_walk in Hr as (He & Hw & Hk).
  unfold isdir_pp. rewrite (resolve_pp_dir _ p k); simpl; try done.
  - apply walk_insert; [done | by rewrite Hk].
  - apply lookup_insert_eq.
Qed.

(** A directory stays one when another is made. *)
Lemma mkdir_pp_keeps_dir (p q : ppath) (s s' : state) :
  mkdir_pp p s = (Ok tt, s') → isdir_pp s q = true → isdir_pp s' q = true.
Proof.
  intros (k & Hr & ->)%mkdir_pp_ok_inv. unfold isdir_pp.
  destruct (resolve_pp s q) as [[r [[|c]|]]|e] eqn:Hq; try discriminate.
  intros _. apply resolve_pp_walk in Hr as (_ & _ & Hk).
  rewrite (resolve_pp_dir_insert _ _ r); [done | done | by rewrite Hk].
Qed.

Lemma strip_prefix_app (pre rest : key) : strip_prefix pre (pre ++ rest) = Some rest.
Proof.
  induction pre as [|a pre IH]; simpl; [reflexivity|]. by rewrite String.eqb_refl.
Qed.

Lemma has_children_false (m : gmap key node) (k : key) (c : string) (rest : key) :
  has_children m k = false → m !! (k ++ c :: rest) = None.
Proof.
  intros Hch. destruct (m !! (k ++ c :: rest)) as [n|] eqn:Hl; [|reflexivity].
  exfalso. apply elem_of_map_to_list in Hl.
  unfold has_children in Hch.
  assert (existsb (λ kn : key * node, strictly_under k kn.1) (map_to_list m) = true)
    as Hex; [|by rewrite Hex in Hch].
  apply existsb_exists. exists (k ++ c :: rest, n). split.
  - by apply list_elem_of_In.
  - unfold strictly_under. simpl. by rewrite strip_prefix_app.
Qed.

(** ** Plain names *)

Lemma str_split_no_sep (c : ascii) (s : string) :
  str_contains c s = false → str_split c s = [s].
Proof.
  induction s as [|a r IH]; simpl; [reflexivity|].
  intros [Ha Hr]%orb_false_elim. rewrite Ha, (IH Hr). reflexivity.
Qed.

Lemma startswith_no_sep (s : string) :
  str_contains sep s = false → startswith s "/" = false.
Proof.
  destruct s as [|a r]; simpl; [reflexivity|].
  intros [Ha _]%orb_false_elim. unfold sep in Ha. by rewrite Ha.
Qed.

Lemma endswith_no_sep (c : ascii) (s : string) :
  str_contains c s = false → endswith_char s c = false.
Proof.
  induction s as [|a r IH]; simpl; [reflexivity|].
  intros [Ha Hr]%orb_false_elim. destruct r; [exact Ha | by apply IH].
Qed.

Lemma plain_name_spec (c : string) :
  plain_name c = true →
  str_contains sep c = false ∧ c ≠ EmptyString
  ∧ String.eqb c "." = false ∧ String.eqb c ".." = false.
Proof.
  unfold plain_name, nonempty.
  intros [[[[H1 H2]%andb_prop H3]%andb_prop H4]%andb_prop _]%andb_prop.
  apply negb_true_iff in H1, H2, H3, H4.
  repeat split; try done. intros ->. discriminate.
Qed.

Lemma valid_name_spec (c : string) :
  valid_name c = true → has_nul c = false ∧ too_long c = false.
Proof.
  unfold valid_name. intros [H1 H2]%andb_prop. by apply negb_true_iff in H1, H2.
Qed.

Lemma plain_name_valid (c : string) :
  plain_name c = true → has_nul c = false ∧ too_long c = false.
Proof. unfold plain_name. intros [_ H]%andb_prop. by apply valid_name_spec. Qed.

Lemma plain_name_comps (c : string) : plain_name c = true → p_comps (parse_path c) = [c].
Proof.
  intros (Hs & Hne & _)%plain_name_spec. simpl. rewrite (str_split_no_sep _ _ Hs).
  simpl. unfold nonempty. destruct c; [done | reflexivity].
Qed.

Lemma plain_name_step (r : key) (c : string) : plain_name c = true → step r c = r ++ [c].
Proof. intros (_ & _ & H1 & H2)%plain_name_spec. unfold step. by rewrite H1, H2. Qed.

Lemma plain_name_nul (c : string) :
  plain_name c = true → nul_path (parse_path c) = false.
Proof.
  intros Hc. unfold nul_path. rewrite (plain_name_comps _ Hc). simpl.
  by rewrite (proj1 (plain_name_valid _ Hc)).
Qed.

(** A plain name below a directory resolves to the place of that name. *)
Lemma resolve_child (s : state) (a c : string) (r : key) :
  resolve s a = Ok (r, Some Dir) → plain_name c = true →
  resolve s (os_path_join a c) = Ok (r ++ [c], fs s !! (r ++ [c])).
Proof.
  intros Ha Hc. pose proof (plain_name_spec _ Hc) as (Hs & Hne & _).
  rewrite (resolve_join _ _ _ _ Ha (startswith_no_sep _ Hs) (plain_name_nul _ Hc)).
  rewrite (plain_name_comps _ Hc). simpl walk.
  apply resolve_pp_walk in Ha as (_ & _ & ->).
  rewrite (proj2 (plain_name_valid _ Hc)), (plain_name_step _ _ Hc).
  rewrite (parse_path_join_slash _ _ (startswith_no_sep _ Hs) Hne).
  rewrite (endswith_no_sep _ _ Hs).
  by destruct (fs s !! (r ++ [c])) as [[|x]|].
Qed.

Lemma app_cons_ne {A : Type} (l : list A) (x : A) (r : list A) : l ≠ l ++ x :: r.
Proof.
  intros H. apply (f_equal length) in H. rewrite length_app in H. simpl in H. lia.
Qed.

(** ** The directory skeleton *)


Lemma create_directory_structure_for_each (harvest_path : string) (s : state) :
  create_directory_structure harvest_path s
  = for_each (skeleton_paths harvest_path) os_mkdir s.
Proof.
  unfold create_directory_structure, skeleton_paths. simpl for_each.
  unfold mbind, M_bind.
  destruct (os_mkdir harvest_path s) as [[[]|e] s1]; [|reflexivity].
  destruct (os_mkdir _ s1) as [[[]|e] s2]; [|reflexivity].
  destruct (os_mkdir _ s2) as [[[]|e] s3]; [|reflexivity].
  by destruct (os_mkdir _ s3) as [[[]|e] s4].
Qed.

Lemma for_each_app {A : Type} (xs ys : list A) (f : A → M unit) (s s1 : state) :
  for_each xs f s = (Ok tt, s1) → for_each (xs ++ ys) f s = for_each ys f s1.
Proof.
  revert s. induction xs as [|x xs IH]; intros s; simpl.
  - by intros [= ->].
  - intros ([] & s' & Hx & Hrest)%bind_ok_inv.
    rewrite (bind_ok _ _ _ _ _ Hx). by apply IH.
Qed.

Lemma for_each_mkdir_keeps_dir (l : list string) (q : ppath) (s s1 : state) :
  for_each l os_mkdir s = (Ok tt, s1) → isdir_pp s q = true → isdir_pp s1 q = true.
Proof.
  revert s. induction l as [|p l IH]; intros s; simpl.
  - by intros [= ->].
  - intros ([] & s' & Hp & Hrest)%bind_ok_inv Hq.
    apply (IH s' Hrest). by apply (mkdir_pp_keeps_dir _ _ _ _ Hp).
Qed.

(** Every directory made by a run of [mkdir] calls is there at its end. *)
Lemma for_each_mkdir_isdir (l : list string) (s s1 : state) :
  for_each l os_mkdir s = (Ok tt, s1) →
  Forall (λ q, isdir_pp s1 (parse_path q) = true) l.
Proof.
  revert s. induction l as [|p l IH]; intros s; simpl; [constructor|].
  intros ([] & s' & Hp & Hrest)%bind_ok_inv. constructor.
  - apply (for_each_mkdir_keeps_dir _ _ _ _ Hrest). by apply mkdir_pp_isdir in Hp.
  - by apply (IH s').
Qed.




(** No directory above the root is made: when the root, taken without a
    slash at its end, does not resolve, the creation fails at once. *)
Lemma create_directory_structure_unresolved (harvest_path : string) (s : state) (e : exn) :
  resolve_pp s (no_slash (parse_path harvest_path)) = Err e →
  create_directory_structure harvest_path s = (Err e, s).
Proof.
  intros Hr. unfold create_directory_structure. apply bind_err. by apply mkdir_pp_err.
Qed.






(** ** Renaming the capture file *)

Lemma str_length_app (s t : string) :
  String.length (s +:+ t) = String.length s + String.length t.
Proof.
  induction s as [|a r IH]; [reflexivity|]. rewrite append_cons. simpl. by rewrite IH.
Qed.



Lemma dot_final_join (a b c : string) :
  startswith b "/" = false →
  last (p_comps (parse_path b)) = Some c →
  String.eqb c "." = false → String.eqb c ".." = false →
  dot_final (parse_path (os_path_join a b)) = false.
Proof.
  intros Hb Hlast H1 H2. unfold dot_final.
  destruct (parse_path_join a b Hb) as [_ ->].
  rewrite last_app, Hlast. by rewrite H1, H2.
Qed.

Lemma dot_final_child (a c : string) :
  plain_name c = true → dot_final (parse_path (os_path_join a c)) = false.
Proof.
  intros Hc. pose proof (plain_name_spec _ Hc) as (Hs & _ & H1 & H2).
  apply (dot_final_join a c c); try done.
  - by apply startswith_no_sep.
  - by rewrite (plain_name_comps _ Hc).
Qed.

Lemma slash_child (a c : string) :
  plain_name c = true → p_slash (parse_path (os_path_join a c)) = false.
Proof.
  intros Hc. pose proof (plain_name_spec _ Hc) as (Hs & Hne & _).
  rewrite parse_path_join_slash; [by apply endswith_no_sep | by apply startswith_no_sep | done].
Qed.

(** A path that resolves has the directory of its last name. *)
Lemma resolve_pp_resolve_dir (s : state) (p : ppath) (r : key * option node) :
  resolve_pp s p = Ok r → resolve_dir s p = Ok tt.
Proof.
  destruct r as [k n]. intros (He & Hw & _)%resolve_pp_walk. unfold resolve_dir.
  rewrite He. destruct (p_comps p) as [|c cs] eqn:Hcs; [reflexivity|].
  destruct (exists_last (l := c :: cs)) as (cs' & c' & Hlast); [done|].
  rewrite Hlast in Hw |- *. rewrite removelast_last.
  apply walk_snoc_dir in Hw as (k' & -> & -> & _). reflexivity.
Qed.

Lemma resolve_pp_file_slash (s : state) (p : ppath) (k : key) (c : bytes) :
  resolve_pp s p = Ok (k, Some (File c)) → p_slash p = false.
Proof.
  unfold resolve_pp. destruct (nul_path p); [done|].
  destruct (negb (p_abs p) && Nat.eqb (length (p_comps p)) 0); [done|].
  destruct (walk _ _ _) as [k'|e]; [|done].
  destruct (fs s !! k') as [[|c']|]; try done. by destruct (p_slash p).
Qed.

Lemma strip_prefix_app_l (pre x y : key) :
  strip_prefix (pre ++ x) (pre ++ y) = strip_prefix x y.
Proof.
  induction pre as [|a pre IH]; simpl; [reflexivity|]. by rewrite String.eqb_refl.
Qed.

Lemma strictly_under_cousin (root : key) (n a : string) (rest : key) :
  n ≠ a → strictly_under (root ++ [n]) (root ++ a :: rest) = false.
Proof.
  intros Hne. unfold strictly_under. rewrite strip_prefix_app_l. simpl.
  by destruct (String.eqb_spec n a).
Qed.

(** A regular file renamed onto a free name or onto a regular file. *)
Lemma os_rename_file (src dst : string) (s : state) (ks kd : key) (c : bytes)
    (nd : option node) :
  resolve s src = Ok (ks, Some (File c)) →
  resolve s dst = Ok (kd, nd) → nd ≠ Some Dir →
  dot_final (parse_path src) = false → dot_final (parse_path dst) = false →
  p_slash (parse_path dst) = false → ks ≠ kd →
  strictly_under kd ks = false →
  os_rename src dst s
  = (Ok tt, update s (<[kd := File c]> (delete ks (fs s))) (EvRename ks kd)).
Proof.
  intros Hs Hd Hnd Hfs Hfd Hsl Hne Hunder. unfold os_rename. cbv zeta.
  rewrite (resolve_pp_nul _ _ _ Hs), (resolve_pp_nul _ _ _ Hd). cbn [orb].
  rewrite (resolve_pp_resolve_dir _ _ _ Hs), (resolve_pp_resolve_dir _ _ _ Hd).
  rewrite Hfs, Hfd. cbn [orb].
  rewrite (resolve_pp_no_slash _ _ _ Hs), (resolve_pp_no_slash _ _ _ Hd).
  rewrite (resolve_pp_file_slash _ _ _ _ Hs), Hsl, Hunder. cbn [orb].
  rewrite bool_decide_eq_false_2 by done.
  by destruct nd as [[|x]|].
Qed.



(** ** Normalised paths *)

Lemma norm_step_no_dot (abs : bool) (st : list string) (c : string) :
  Forall (λ x, x ≠ ".") st → Forall (λ x, x ≠ ".") (norm_step abs st c).
Proof.
  intros Hst. unfold norm_step.
  destruct (String.eqb_spec c "."); [exact Hst|].
  destruct (String.eqb_spec c ".."); simpl.
  - destruct st as [|top rest].
    + destruct abs; [constructor | by repeat constructor].
    + destruct (String.eqb top ".."); [by constructor | by inversion Hst].
  - by constructor.
Qed.

(** The names [normpath] keeps lead where the names it was given lead. *)
Lemma norm_walk_stack (m : gmap key node) (abs : bool) (start : key) (cs : list string) :
  (abs = true → start = []) →
  ∀ (st : list string) (cur k : key),
    Forall (λ x, x ≠ ".") st →
    walk m start (rev st) = Ok cur →
    walk m cur cs = Ok k →
    walk m start (rev (fold_left (norm_step abs) cs st)) = Ok k.
Proof.
  intros Habs. induction cs as [|c cs IH]; intros st cur k Hst Hcur; simpl.
  - by intros [= <-].
  - destruct (m !! cur) as [[|x]|] eqn:Hd; try discriminate.
    destruct (too_long c) eqn:Hlong; [discriminate|].
    intros Hk. apply (IH _ (step cur c)); [by apply norm_step_no_dot | | exact Hk].
    unfold norm_step, step.
    destruct (String.eqb_spec c "."); [exact Hcur|].
    destruct (String.eqb_spec c "..") as [->|Hc]; simpl.
    + destruct st as [|top rest].
      * simpl in Hcur. injection Hcur as <-.
        destruct abs; simpl; [by rewrite Habs | by rewrite Hd].
      * destruct (String.eqb_spec top "..") as [->|Htop].
        -- change (rev (".." :: ".." :: rest)) with (rev (".." :: rest) ++ [".."]).
           rewrite walk_app, Hcur. simpl. by rewrite Hd.
        -- simpl in Hcur. apply walk_snoc_dir in Hcur as (k' & Hk' & _ & ->).
           rewrite Hk'. f_equal. unfold step.
           inversion Hst as [|? ? Hdot _]; subst.
           destruct (String.eqb_spec top "."); [done|].
           destruct (String.eqb_spec top ".."); [done|].
           by rewrite removelast_last.
    + rewrite walk_app, Hcur. simpl. rewrite Hd, Hlong. f_equal. unfold step.
      destruct (String.eqb_spec c "."); [done|].
      by destruct (String.eqb_spec c "..").
Qed.

Lemma existsb_rev_eq {A : Type} (f : A → bool) (l : list A) :
  existsb f (rev l) = existsb f l.
Proof.
  induction l as [|a l IH]; [reflexivity|]. simpl. rewrite existsb_app, IH. simpl.
  by destruct (f a), (existsb f l).
Qed.

Lemma norm_step_nul (abs : bool) (st : list string) (c : string) :
  existsb has_nul st = false → has_nul c = false →
  existsb has_nul (norm_step abs st c) = false.
Proof.
  intros Hst Hc. unfold norm_step.
  destruct (String.eqb c "."); [exact Hst|].
  destruct (String.eqb c ".."); cbn [negb].
  - destruct st as [|top rest].
    + destruct abs; [reflexivity|]. cbn [existsb]. by rewrite Hc.
    + cbn [existsb] in Hst. apply orb_false_elim in Hst as [Ht Hr].
      destruct (String.eqb top ".."); [|exact Hr].
      cbn [existsb]. by rewrite Hc, Ht, Hr.
  - cbn [existsb]. by rewrite Hc, Hst.
Qed.

(** [normpath] brings no NUL character into a path. *)
Lemma norm_nul (abs : bool) (cs : list string) :
  existsb has_nul cs = false →
  existsb has_nul (rev (fold_left (norm_step abs) cs [])) = false.
Proof.
  rewrite existsb_rev_eq.
  assert (∀ st, existsb has_nul st = false → existsb has_nul cs = false →
                existsb has_nul (fold_left (norm_step abs) cs st) = false) as H.
  { induction cs as [|c cs IH]; intros st Hst Hcs; [exact Hst|].
    cbn [existsb] in Hcs. apply orb_false_elim in Hcs as [Hc Hcs].
    cbn [fold_left]. apply IH; [by apply norm_step_nul | exact Hcs]. }
  by apply H.
Qed.

Lemma norm_walk (s : state) (p : ppath) (k : key) :
  walk (fs s) (if p_abs p then [] else cwd s) (p_comps p) = Ok k →
  walk (fs s) (if p_abs p then [] else cwd s)
    (rev (fold_left (norm_step (p_abs p)) (p_comps p) [])) = Ok k.
Proof.
  intros Hw.
  apply (norm_walk_stack (fs s) (p_abs p) _ (p_comps p)) with (st := []) (cur := if p_abs p then [] else cwd s);
    [by intros -> | constructor | reflexivity | exact Hw].
Qed.

(** ** Characters after the last separator *)

Lemma rfind_succ_absent (c : ascii) (s : string) :
  str_contains c s = false → rfind_succ c s = 0.
Proof.
  induction s as [|a r IH]; simpl; [reflexivity|].
  intros [Ha Hr]%orb_false_elim. by rewrite (IH Hr), Ha.
Qed.

Lemma rfind_succ_app (c : ascii) (s t : string) :
  str_contains c t = false → rfind_succ c (s +:+ String c t) = S (String.length s).
Proof.
  intros Ht. induction s as [|a r IH].
  - rewrite append_nil_l. simpl. by rewrite (rfind_succ_absent _ _ Ht), Ascii.eqb_refl.
  - rewrite append_cons. simpl. by rewrite IH.
Qed.

Lemma str_drop_app (s t : string) : str_drop (String.length s) (s +:+ t) = t.
Proof.
  induction s as [|a r IH]; [by destruct t|]. rewrite append_cons. exact IH.
Qed.

Lemma os_path_split_tail (s t : string) :
  str_contains sep t = false → (os_path_split (s +:+ String sep t)).2 = t.
Proof.
  intros Ht. unfold os_path_split. cbn [snd]. rewrite (rfind_succ_app _ _ _ Ht).
  replace (S (String.length s)) with (String.length (s +:+ String sep EmptyString))
    by (rewrite str_length_app; simpl; lia).
  replace (s +:+ String sep t) with ((s +:+ String sep EmptyString) +:+ t)
    by (by rewrite append_assoc).
  apply str_drop_app.
Qed.

(** ** Extraction of a member that lies directly in [archive/] *)

Lemma app_cons_ne_sym {A : Type} (l : list A) (x : A) (r : list A) : l ++ x :: r ≠ l.
Proof. intros H. symmetry in H. by apply app_cons_ne in H. Qed.

Lemma resolve_pp_below (s : state) (abs : bool) (pre more : list string) (root k : key) :
  existsb has_nul pre = false → existsb has_nul more = false →
  walk (fs s) (if abs then [] else cwd s) pre = Ok root →
  walk (fs s) root more = Ok k →
  more ≠ [] →
  resolve_pp s {| p_abs := abs; p_comps := pre ++ more; p_slash := false |}
  = Ok (k, fs s !! k).
Proof.
  intros Hnp Hnm Hpre Hmore Hne. unfold resolve_pp, nul_path. simpl.
  rewrite existsb_app, Hnp, Hnm, walk_app, Hpre, Hmore. cbn [orb].
  replace (negb abs && Nat.eqb (length (pre ++ more)) 0) with false.
  - by destruct (fs s !! k) as [[|c]|].
  - symmetry. apply andb_false_intro2. rewrite length_app.
    destruct more; [done|]. simpl. by rewrite Nat.add_succ_r.
Qed.

Lemma norm_step_plain (abs : bool) (st : list string) (c : string) :
  plain_name c = true → norm_step abs st c = c :: st.
Proof.
  intros (_ & _ & H1 & H2)%plain_name_spec. unfold norm_step. by rewrite H1, H2.
Qed.

Lemma normpath_pp_below (abs : bool) (cs : list string) (a n : string) :
  plain_name a = true → plain_name n = true →
  normpath_pp {| p_abs := abs; p_comps := cs ++ [a; n]; p_slash := false |}
  = {| p_abs := abs;
       p_comps := rev (fold_left (norm_step abs) cs []) ++ [a; n];
       p_slash := false |}.
Proof.
  intros Ha Hn. unfold normpath_pp. cbn [p_abs p_comps].
  rewrite fold_left_app. cbn [fold_left].
  rewrite (norm_step_plain _ _ _ Ha), (norm_step_plain _ _ _ Hn).
  cbn [rev]. rewrite <- !app_assoc. cbn [app].
  replace (Nat.eqb (length (rev (fold_left (norm_step abs) cs []) ++ [a; n])) 0) with false.
  - by rewrite andb_false_r.
  - rewrite length_app. simpl. by rewrite Nat.add_succ_r.
Qed.

Lemma removelast_snoc2 {A : Type} (l : list A) (a n : A) :
  removelast (l ++ [a; n]) = l ++ [a].
Proof.
  change (l ++ [a; n]) with (l ++ [a] ++ [n]). rewrite app_assoc. apply removelast_last.
Qed.

Lemma archive_member_parts (n : string) :
  plain_name n = true →
  List.filter (λ x, negb (invalid_path_part x)) (str_split sep ("archive/" +:+ n))
  = ["archive"; n]
  ∧ p_comps (parse_path ("archive/" +:+ n)) = ["archive"; n]
  ∧ endswith_char ("archive/" +:+ n) sep = false
  ∧ startswith ("archive/" +:+ n) "/" = false
  ∧ (os_path_split ("archive/" +:+ n)).2 = n.
Proof.
  intros Hn. pose proof (plain_name_spec _ Hn) as (Hs & Hne & H1 & H2).
  assert (str_split sep ("archive/" +:+ n) = ["archive"; n]) as Hsplit.
  { change ("archive/" +:+ n) with ("archive" +:+ String sep n).
    by rewrite str_split_app, (str_split_no_sep _ _ Hs). }
  assert (String.eqb n "" = false) as H0 by by apply String.eqb_neq.
  split; [|split; [|split; [|split]]].
  - rewrite Hsplit. cbn [List.filter]. unfold invalid_path_part at 2. rewrite H0, H1, H2.
    reflexivity.
  - cbn [parse_path p_comps]. rewrite Hsplit. cbn [List.filter]. unfold nonempty at 2.
    rewrite H0. reflexivity.
  - rewrite endswith_char_app by done. by apply endswith_no_sep.
  - reflexivity.
  - change ("archive/" +:+ n) with ("archive" +:+ String sep n).
    by apply os_path_split_tail.
Qed.

Lemma archive_member_nul (n : string) :
  plain_name n = true → nul_path (parse_path ("archive/" +:+ n)) = false.
Proof.
  intros Hn. pose proof (archive_member_parts _ Hn) as (_ & Hcomps & _).
  unfold nul_path. rewrite Hcomps. cbn [existsb].
  by rewrite (proj1 (plain_name_valid _ Hn)).
Qed.

(** With the parent in place [makedirs] is one [mkdir]. *)
Lemma os_makedirs_pp_parent (s : state) (abs : bool) (pre : list string) (a : string)
    (root : key) :
  existsb has_nul (rev pre) = false →
  walk (fs s) (if abs then [] else cwd s) (rev pre) = Ok root →
  fs s !! root = Some Dir →
  os_makedirs_pp {| p_abs := abs; p_comps := rev pre ++ [a]; p_slash := false |} s
  = mkdir_pp {| p_abs := abs; p_comps := rev pre ++ [a]; p_slash := false |} s.
Proof.
  intros Hnul Hw Hr. unfold os_makedirs_pp. cbn [p_abs p_comps].
  rewrite rev_app_distr, rev_involutive. cbn [rev app makedirs_rev].
  destruct (abs || negb (Nat.eqb (length pre) 0)) eqn:E; [|reflexivity].
  replace (exists_pp s {| p_abs := abs; p_comps := rev pre; p_slash := false |}) with true;
    [reflexivity|].
  symmetry. unfold exists_pp. rewrite (resolve_pp_dir _ _ root); try done.
  cbn [p_abs p_comps]. rewrite length_rev.
  destruct abs; [reflexivity|]. simpl in E. by rewrite negb_true_iff in E.
Qed.

Lemma zip_extract_plain (member : ZipInfo) (to_path n : string) (s : state) (root : key) :
  resolve s to_path = Ok (root, Some Dir) →
  plain_name n = true →
  filename member = "archive/" +:+ n →
  fs s !! (root ++ ["archive"]) = None →
  has_children (fs s) (root ++ ["archive"]) = false →
  zip_extract member to_path s
  = (Ok tt,
     {| fs := <[root ++ ["archive"; n] := File (file_data member)]>
                (<[root ++ ["archive"] := Dir]> (fs s));
        cwd := cwd s;
        log := log s ++ [ EvMkdir (root ++ ["archive"]);
                          EvWrite (root ++ ["archive"; n]) (file_data member) ] |}).
Proof.
  intros Hto Hn Hname Harch Hch.
  pose proof (archive_member_parts _ Hn) as (Harc & _ & Hend & _ & _).
  pose proof (plain_name_valid _ Hn) as [Hnn Htn].
  pose proof (norm_nul (p_abs (parse_path to_path)) _ (resolve_pp_nul _ _ _ Hto)) as Hnst.
  assert (existsb has_nul ["archive"; n] = false) as Hnan
    by (cbn [existsb]; by rewrite Hnn).
  apply resolve_pp_walk in Hto as (He & Hw & Hr).
  pose proof (norm_walk _ _ _ Hw) as Hnw.
  set (abs := p_abs (parse_path to_path)) in *.
  set (st := fold_left (norm_step abs) (p_comps (parse_path to_path)) []) in *.
  unfold zip_extract. rewrite Hname, Harc.
  fold abs. rewrite (normpath_pp_below abs _ "archive" n eq_refl Hn). fold st.
  cbn [p_abs p_comps]. rewrite removelast_snoc2.
  (* the directory above the target *)
  assert (resolve_pp s {| p_abs := abs; p_comps := rev st ++ ["archive"]; p_slash := false |}
          = Ok (root ++ ["archive"], None)) as Hup.
  { rewrite (resolve_pp_below _ _ _ _ root (root ++ ["archive"])); try done.
    - by rewrite Harch.
    - simpl. by rewrite Hr. }
  unfold exists_pp at 1. rewrite Hup.
  replace (abs || negb (Nat.eqb (length (rev st ++ ["archive"])) 0)) with true.
  2:{ rewrite length_app. simpl. rewrite Nat.add_1_r. simpl. by rewrite orb_true_r. }
  cbn [andb negb when].
  pose proof (os_makedirs_pp_parent s abs st "archive" root Hnst Hnw Hr) as Hmk.
  rewrite (mkdir_pp_ok _ _ _ Hup) in Hmk.
  rewrite (bind_ok _ _ _ _ _ Hmk).
  replace (String.eqb ("archive/" +:+ n) "") with false by reflexivity.
  rewrite Hend.
  set (s1 := update s (<[root ++ ["archive"] := Dir]> (fs s)) (EvMkdir (root ++ ["archive"]))).
  (* the target *)
  assert (resolve_pp s1 {| p_abs := abs; p_comps := rev st ++ ["archive"; n]; p_slash := false |}
          = Ok (root ++ ["archive"; n], None)) as Htarget.
  { rewrite (resolve_pp_below _ _ _ _ root (root ++ ["archive"; n])); try done.
    - f_equal. f_equal. simpl. rewrite lookup_insert_ne.
      + change (root ++ ["archive"; n]) with (root ++ ["archive"] ++ [n]).
        rewrite app_assoc. by apply has_children_false.
      + change (root ++ ["archive"; n]) with (root ++ ["archive"] ++ [n]).
        rewrite app_assoc. apply app_cons_ne.
    - simpl. apply walk_insert; [done | by rewrite Harch].
    - simpl. rewrite lookup_insert_ne by apply app_cons_ne_sym. rewrite Hr.
      change (step root "archive") with (root ++ ["archive"]).
      rewrite lookup_insert_eq, Htn, (plain_name_step _ _ Hn).
      by rewrite <- app_assoc. }
  rewrite (write_pp_ok _ _ _ _ _ Htarget) by done.
  unfold s1, update. simpl. by rewrite <- app_assoc.
Qed.

(** ** Relocation of a member that lies directly in [archive/] *)

Lemma strictly_under_sibling (root : key) (a n : string) :
  strictly_under (root ++ [a]) (root ++ [n]) = false.
Proof.
  unfold strictly_under. rewrite strip_prefix_app_l. simpl.
  by destruct (String.eqb a n).
Qed.

Lemma strictly_under_self (k : key) : strictly_under k k = false.
Proof.
  unfold strictly_under. replace k with (k ++ []) at 2 by apply app_nil_r.
  by rewrite strip_prefix_app.
Qed.

Lemma has_children_false_iff (m : gmap key node) (k : key) :
  has_children m k = false ↔ ∀ k' v, m !! k' = Some v → strictly_under k k' = false.
Proof.
  unfold has_children. split.
  - intros Hex k' v Hl. apply elem_of_map_to_list, list_elem_of_In in Hl.
    destruct (strictly_under k k') eqn:Hu; [|reflexivity].
    assert (existsb (λ kn : key * node, strictly_under k kn.1) (map_to_list m) = true)
      as Ht; [|by rewrite Ht in Hex].
    apply existsb_exists. by exists (k', v).
  - intros Hall. apply not_true_is_false. intros ([k' v] & Hin & Hu)%existsb_exists.
    apply list_elem_of_In, elem_of_map_to_list in Hin.
    simpl in Hu. by rewrite (Hall _ _ Hin) in Hu.
Qed.

Lemma walk_one (m : gmap key node) (r : key) (a : string) :
  m !! r = Some Dir → plain_name a = true → walk m r [a] = Ok (r ++ [a]).
Proof.
  intros Hr Ha. simpl.
  by rewrite Hr, (proj2 (plain_name_valid _ Ha)), (plain_name_step _ _ Ha).
Qed.

Lemma walk_two (m : gmap key node) (r : key) (a n : string) :
  m !! r = Some Dir → plain_name a = true →
  m !! (r ++ [a]) = Some Dir → plain_name n = true →
  walk m r [a; n] = Ok (r ++ [a; n]).
Proof.
  intros Hr Ha Hra Hn. simpl.
  rewrite Hr, (proj2 (plain_name_valid _ Ha)), (plain_name_step _ _ Ha).
  rewrite Hra, (proj2 (plain_name_valid _ Hn)), (plain_name_step _ _ Hn).
  by rewrite <- app_assoc.
Qed.

Lemma os_rmdir_ok (p : string) (s : state) (k : key) (c : string) :
  resolve s p = Ok (k, Some Dir) →
  last (p_comps (parse_path p)) = Some c → c ≠ "." →
  has_children (fs s) k = false → k ≠ [] →
  os_rmdir p s = (Ok tt, update s (delete k (fs s)) (EvRmdir k)).
Proof.
  intros Hr Hlast Hc Hch Hk. unfold os_rmdir. rewrite Hr, Hlast, Hch.
  rewrite bool_decide_eq_false_2 by (by intros [= ->]).
  by rewrite bool_decide_eq_false_2.
Qed.

(** One turn of the loop of [extract_from_to] on a member [archive/<n>]:
    the member's bytes end up under [<n>] in the destination, whether the
    name was free or held a regular file, and nothing else changes. *)
Lemma relocate_plain_member (member : ZipInfo) (to_path n : string) (s : state)
    (root : key) :
  resolve s to_path = Ok (root, Some Dir) →
  plain_name n = true → n ≠ "archive" →
  filename member = "archive/" +:+ n →
  fs s !! (root ++ ["archive"]) = None →
  has_children (fs s) (root ++ ["archive"]) = false →
  fs s !! (root ++ [n]) ≠ Some Dir →
  (zip_extract member to_path;;
   shutil_move (os_path_join to_path (filename member))
     (os_path_join to_path (os_path_split (filename member)).2);;
   os_rmdir (os_path_join to_path "archive/")) s
  = (Ok tt,
     {| fs := <[root ++ [n] := File (file_data member)]> (fs s);
        cwd := cwd s;
        log := log s ++ [ EvMkdir (root ++ ["archive"]);
                          EvWrite (root ++ ["archive"; n]) (file_data member);
                          EvRename (root ++ ["archive"; n]) (root ++ [n]);
                          EvRmdir (root ++ ["archive"]) ] |}).
Proof.
  intros Hto Hn Hna Hname Harch Hch Hflat.
  pose proof (archive_member_parts _ Hn) as (_ & Hcomps & Hend & Hstart & Htail).
  pose proof (plain_name_spec _ Hn) as (Hs & Hne & Hd1 & Hd2).
  assert (root ++ ["archive"; n] = (root ++ ["archive"]) ++ [n]) as Hkey
    by by rewrite <- app_assoc.
  assert (fs s !! (root ++ ["archive"; n]) = None) as Hdeep
    by (rewrite Hkey; by apply has_children_false).
  assert (root ++ [n] ≠ root ++ ["archive"]) as Hne1 by (by intros [= ->]%app_inv_head).
  assert (root ++ ["archive"; n] ≠ root ++ [n]) as Hne2 by (by intros [=]%app_inv_head).
  rewrite (bind_ok _ _ _ _ _ (zip_extract_plain _ _ _ _ _ Hto Hn Hname Harch Hch)).
  rewrite Hname, Htail.
  set (m1 := <[root ++ ["archive"] := Dir]> (fs s)).
  set (s2 := {| fs := <[root ++ ["archive"; n] := File (file_data member)]> m1;
                cwd := cwd s; log := _ |}).
  pose proof Hto as (He & Hw & Hr)%resolve_pp_walk.
  (* the destination directory after the extraction *)
  assert (resolve s2 to_path = Ok (root, Some Dir)) as Hto2.
  { apply resolve_pp_dir; simpl; [exact (resolve_pp_nul _ _ _ Hto) | done | |].
    - apply walk_insert; [apply walk_insert; [done | by rewrite Harch]|].
      unfold m1. rewrite lookup_insert_ne by (rewrite Hkey; apply app_cons_ne).
      by rewrite Hdeep.
    - rewrite lookup_insert_ne by (rewrite Hkey, <- app_assoc; apply app_cons_ne_sym).
      unfold m1. by rewrite lookup_insert_ne by apply app_cons_ne_sym. }
  assert (fs s2 !! (root ++ [n]) = fs s !! (root ++ [n])) as Hflat2.
  { simpl. rewrite lookup_insert_ne by done. unfold m1. by rewrite lookup_insert_ne. }
  (* the move *)
  assert (shutil_move (os_path_join to_path ("archive/" +:+ n)) (os_path_join to_path n) s2
          = (Ok tt, update s2 (<[root ++ [n] := File (file_data member)]>
                                 (delete (root ++ ["archive"; n]) (fs s2)))
                      (EvRename (root ++ ["archive"; n]) (root ++ [n])))) as Hmove.
  { pose proof (resolve_child _ _ _ _ Hto2 Hn) as Hdst. rewrite Hflat2 in Hdst.
    unfold shutil_move, isdir_pp. unfold resolve in Hdst. rewrite Hdst.
    replace (match fs s !! (root ++ [n]) with Some Dir => true | _ => false end)
      with false by (by destruct (fs s !! (root ++ [n])) as [[|c]|]).
    unfold rename_or_copy.
    rewrite (os_rename_file _ _ s2 (root ++ ["archive"; n]) (root ++ [n])
               (file_data member) (fs s !! (root ++ [n]))); try done.
    - rewrite (resolve_join _ _ _ _ Hto2 Hstart (archive_member_nul _ Hn)), Hcomps.
      rewrite (walk_two _ root "archive" n); try done.
      + replace (fs s2 !! (root ++ ["archive"; n])) with (Some (File (file_data member)))
          by (simpl; by rewrite lookup_insert_eq).
        rewrite (parse_path_join_slash _ _ Hstart) by done. by rewrite Hend.
      + by apply resolve_pp_walk in Hto2 as (_ & _ & ->).
      + simpl. rewrite lookup_insert_ne by (rewrite Hkey; apply app_cons_ne_sym).
        unfold m1. by rewrite lookup_insert_eq.
    - apply (dot_final_join _ _ n); try done. by rewrite Hcomps.
    - by apply dot_final_child.
    - by apply slash_child.
    - by apply strictly_under_cousin. }
  rewrite (bind_ok _ _ _ _ _ Hmove).
  set (s3 := update s2 _ _).
  assert (fs s3 = <[root ++ [n] := File (file_data member)]> m1) as Hfs3.
  { simpl. f_equal. rewrite delete_insert_eq. apply delete_id.
    unfold m1. rewrite lookup_insert_ne by (rewrite Hkey; apply app_cons_ne).
    exact Hdeep. }
  (* the removal of the directory the extraction made *)
  assert (resolve s3 to_path = Ok (root, Some Dir)) as Hto3.
  { apply resolve_pp_dir; [exact (resolve_pp_nul _ _ _ Hto) | done | |].
    - rewrite Hfs3. simpl.
      apply walk_insert; [apply walk_insert; [done | by rewrite Harch]|].
      unfold m1. by rewrite lookup_insert_ne.
    - rewrite Hfs3, lookup_insert_ne by apply app_cons_ne_sym.
      unfold m1. by rewrite lookup_insert_ne by apply app_cons_ne_sym. }
  assert (resolve s3 (os_path_join to_path "archive/") = Ok (root ++ ["archive"], Some Dir))
    as Hdir.
  { rewrite (resolve_join s3 to_path "archive/" root Hto3 eq_refl eq_refl).
    change (p_comps (parse_path "archive/")) with ["archive"].
    rewrite (walk_one _ root "archive"); try done.
    - rewrite Hfs3, lookup_insert_ne by done. unfold m1. by rewrite lookup_insert_eq.
    - by apply resolve_pp_walk in Hto3 as (_ & _ & ->). }
  rewrite (os_rmdir_ok _ _ _ "archive" Hdir); try done.
  - unfold update. simpl log. simpl cwd. f_equal. f_equal.
    + rewrite Hfs3, delete_insert_ne by done. unfold m1. by rewrite delete_insert_id.
    + by rewrite <- !app_assoc.
  - destruct (parse_path_join to_path "archive/" eq_refl) as [_ ->].
    change (p_comps (parse_path "archive/")) with ["archive"]. by rewrite last_snoc.
  - apply has_children_false_iff. intros k' v. rewrite Hfs3.
    intros [[<- _]|[_ Hl]]%lookup_insert_Some; [apply strictly_under_sibling|].
    unfold m1 in Hl. apply lookup_insert_Some in Hl as [[<- _]|[_ Hl]].
    + apply strictly_under_self.
    + by apply (proj1 (has_children_false_iff _ _) Hch k' v).
  - by destruct root.
Qed.

(** ** Relocation of an archive whose capture files lie directly in [archive/] *)

Lemma startswith_inv (s p : string) :
  startswith s p = true → s = p +:+ str_drop (String.length p) s.
Proof.
  revert s. induction p as [|b p IH]; intros s; simpl.
  - intros _. by destruct s.
  - destruct s as [|a s]; [discriminate|].
    intros [->%Ascii.eqb_eq Hp]%andb_prop. rewrite append_cons. f_equal. by apply IH.
Qed.

Lemma resolve_pp_ext (s s' : state) (p : ppath) :
  fs s = fs s' → cwd s = cwd s' → resolve_pp s p = resolve_pp s' p.
Proof. intros Hfs Hcwd. unfold resolve_pp. by rewrite Hfs, Hcwd. Qed.

Lemma extract_from_to_flat (zipname to_path : string) (root : key) (l : list ZipInfo) :
  ∀ s : state,
    resolve s to_path = Ok (root, Some Dir) →
    fs s !! (root ++ ["archive"]) = None →
    has_children (fs s) (root ++ ["archive"]) = false →
    Forall (flat_member (fs s) root) l →
    ∃ s', extract_from_to {| zip_filename := zipname; filelist := l |} "archive/" to_path s
          = (Ok tt, s')
          ∧ fs s' = relocated root l (fs s)
          ∧ cwd s' = cwd s
          ∧ resolve s' to_path = Ok (root, Some Dir)
          ∧ fs s' !! (root ++ ["archive"]) = None
          ∧ has_children (fs s') (root ++ ["archive"]) = false.
Proof.
  unfold extract_from_to. cbn [filelist].
  induction l as [|zi l IH]; intros s Hto Harch Hch Hflat.
  { exists s. by repeat split. }
  apply Forall_cons in Hflat as [Hzi Hl]. cbn [for_each relocated].
  destruct (startswith (filename zi) "archive/") eqn:Hpre.
  - destruct (Hzi Hpre) as (Hn & Hna & Hnd).
    pose proof (startswith_inv _ _ Hpre) as Hname.
    change (str_drop (String.length "archive/") (filename zi)) with (member_name zi) in Hname.
    pose proof (relocate_plain_member zi to_path (member_name zi) s root
                  Hto Hn Hna Hname Harch Hch Hnd) as Hone.
    cbn [when]. rewrite (bind_ok _ _ _ _ _ Hone).
    set (s1 := {| fs := <[root ++ [member_name zi] := File (file_data zi)]> (fs s);
                  cwd := cwd s; log := _ |}).
    destruct (IH s1) as (s' & Hrun & Hfs & Hcwd & Hto' & Harch' & Hch').
    + rewrite <- (resolve_pp_dir_insert s (parse_path to_path) root
                    (root ++ [member_name zi]) (File (file_data zi))
                    (EvMkdir []) Hto Hnd).
      by apply resolve_pp_ext.
    + simpl. rewrite lookup_insert_ne; [done | by intros [= ?]%app_inv_head].
    + apply has_children_false_iff. intros k' v. cbn [fs s1].
      intros [[<- _]|[_ Hk']]%lookup_insert_Some; [apply strictly_under_sibling|].
      by apply (proj1 (has_children_false_iff _ _) Hch k' v).
    + apply Forall_forall. intros zj Hin Hj.
      destruct (proj1 (Forall_forall _ _) Hl zj Hin Hj) as (Hnj & Hnaj & Hndj).
      split; [done|]. split; [done|]. simpl.
      destruct (decide (member_name zi = member_name zj)) as [->|Hne].
      * by rewrite lookup_insert_eq.
      * rewrite lookup_insert_ne; [done | by intros [= ?]%app_inv_head].
    + exists s'. by repeat split.
  - cbn [when]. unfold mbind, M_bind, mret, M_ret. by apply IH.
Qed.

(** With no member below the prefix the relocation does nothing. *)
Lemma extract_from_to_no_match (wacz_zip : ZipFile) (from_path to_path : string) (s : state) :
  Forall (λ zi, startswith (filename zi) from_path = false) (filelist wacz_zip) →
  extract_from_to wacz_zip from_path to_path s = (Ok tt, s).
Proof.
  unfold extract_from_to. induction (filelist wacz_zip) as [|zi l IH]; [done|].
  intros [Hzi Hl]%Forall_cons. cbn [for_each]. rewrite Hzi. cbn [when].
  unfold mbind, M_bind, mret, M_ret. by apply IH.
Qed.






(** ** Names already taken *)

Lemma not_a_directory_spec (m : gmap key node) (k : key) :
  not_a_directory m k = true ↔ m !! k ≠ Some Dir.
Proof. unfold not_a_directory. by destruct (m !! k) as [[|c]|]. Qed.

Lemma flat_memberb_spec (m : gmap key node) (root : key) (l : list ZipInfo) :
  forallb (flat_memberb m root) l = true → Forall (flat_member m root) l.
Proof.
  rewrite forallb_forall. intros Hall. apply Forall_forall. intros zi Hin Hpre.
  apply list_elem_of_In, Hall in Hin. unfold flat_memberb in Hin. rewrite Hpre in Hin.
  simpl in Hin. apply andb_prop in Hin as [[Hn Hna]%andb_prop Hnd].
  split; [exact Hn|]. split.
  - apply negb_true_iff in Hna. by apply String.eqb_neq.
  - by apply not_a_directory_spec.
Qed.






(** ** Relocation of a member that lies in a subdirectory of [archive/] *)


Lemma walk_three (m : gmap key node) (r : key) (a d n : string) :
  m !! r = Some Dir → plain_name a = true →
  m !! (r ++ [a]) = Some Dir → plain_name d = true →
  m !! (r ++ [a; d]) = Some Dir → plain_name n = true →
  walk m r [a; d; n] = Ok (r ++ [a; d; n]).
Proof.
  intros Hr Ha Hra Hd Hrad Hn. simpl.
  rewrite Hr, (proj2 (plain_name_valid _ Ha)), (plain_name_step _ _ Ha), Hra.
  rewrite (proj2 (plain_name_valid _ Hd)), (plain_name_step _ _ Hd).
  rewrite <- app_assoc. cbn [app].
  rewrite Hrad, (proj2 (plain_name_valid _ Hn)), (plain_name_step _ _ Hn).
  by rewrite <- app_assoc.
Qed.









(** ** Relocation of the directory member [archive/] *)

Lemma str_rstrip_app (c : ascii) (s t : string) :
  str_rstrip c t ≠ EmptyString → str_rstrip c (s +:+ t) = s +:+ str_rstrip c t.
Proof.
  intros Ht. induction s as [|a r IH]; [reflexivity|].
  rewrite !append_cons. simpl. rewrite IH.
  destruct (r +:+ str_rstrip c t) eqn:Hrt; [|reflexivity].
  destruct r; [|discriminate]. by rewrite append_nil_l in Hrt.
Qed.

Lemma os_path_basename_app (s t : string) :
  str_contains sep t = false → os_path_basename (s +:+ String sep t) = t.
Proof.
  intros Ht. unfold os_path_basename. rewrite (rfind_succ_app _ _ _ Ht).
  replace (S (String.length s)) with (String.length (s +:+ String sep EmptyString))
    by (rewrite str_length_app; simpl; lia).
  replace (s +:+ String sep t) with ((s +:+ String sep EmptyString) +:+ t)
    by (by rewrite append_assoc).
  apply str_drop_app.
Qed.

(** The name [shutil.move] gives the directory inside the destination. *)
Lemma shutil_basename_archive (to_path : string) :
  to_path ≠ EmptyString →
  shutil_basename (os_path_join to_path "archive/") = "archive".
Proof.
  intros Hne. unfold shutil_basename, os_path_join.
  replace (startswith "archive/" "/") with false by reflexivity.
  replace (String.eqb to_path "") with false by (symmetry; by apply String.eqb_neq).
  cbn [orb].
  destruct (endswith_char to_path sep) eqn:Hend.
  - apply endswith_char_inv in Hend as [t0 ->].
    rewrite str_rstrip_app by done.
    change (str_rstrip sep "archive/") with "archive".
    rewrite append_assoc. change (String sep "" +:+ "archive") with (String sep "archive").
    by apply os_path_basename_app.
  - rewrite str_rstrip_app by done. rewrite str_rstrip_app by done.
    change (str_rstrip sep "archive/") with "archive".
    change ("/" +:+ "archive") with (String sep "archive").
    by apply os_path_basename_app.
Qed.

Lemma normpath_pp_below1 (abs : bool) (cs : list string) (a : string) :
  plain_name a = true →
  normpath_pp {| p_abs := abs; p_comps := cs ++ [a]; p_slash := false |}
  = {| p_abs := abs;
       p_comps := rev (fold_left (norm_step abs) cs []) ++ [a];
       p_slash := false |}.
Proof.
  intros Ha. unfold normpath_pp. cbn [p_abs p_comps].
  rewrite fold_left_app. cbn [fold_left]. rewrite (norm_step_plain _ _ _ Ha). cbn [rev].
  replace (Nat.eqb (length (rev (fold_left (norm_step abs) cs []) ++ [a])) 0) with false.
  - by rewrite andb_false_r.
  - rewrite length_app. simpl. by rewrite Nat.add_succ_r.
Qed.

(** The directory member is extracted as the directory [archive]. *)
Lemma zip_extract_marker (member : ZipInfo) (to_path : string) (s : state) (root : key) :
  resolve s to_path = Ok (root, Some Dir) →
  filename member = "archive/" →
  fs s !! (root ++ ["archive"]) = None →
  zip_extract member to_path s
  = (Ok tt, update s (<[root ++ ["archive"] := Dir]> (fs s)) (EvMkdir (root ++ ["archive"]))).
Proof.
  intros Hto Hname Harch.
  pose proof (norm_nul (p_abs (parse_path to_path)) _ (resolve_pp_nul _ _ _ Hto)) as Hnst.
  apply resolve_pp_walk in Hto as (He & Hw & Hr).
  pose proof (norm_walk _ _ _ Hw) as Hnw.
  set (abs := p_abs (parse_path to_path)) in *.
  set (st := fold_left (norm_step abs) (p_comps (parse_path to_path)) []) in *.
  unfold zip_extract. rewrite Hname.
  change (List.filter (λ x, negb (invalid_path_part x)) (str_split sep "archive/"))
    with ["archive"].
  fold abs. rewrite (normpath_pp_below1 abs _ "archive" eq_refl). fold st.
  cbn [p_abs p_comps]. rewrite removelast_last.
  assert (resolve_pp s {| p_abs := abs; p_comps := rev st ++ ["archive"]; p_slash := false |}
          = Ok (root ++ ["archive"], None)) as Htarget.
  { rewrite (resolve_pp_below _ _ _ _ root (root ++ ["archive"])); try done.
    - by rewrite Harch.
    - by apply walk_one. }
  replace ((abs || negb (Nat.eqb (length (rev st)) 0))
           && negb (exists_pp s {| p_abs := abs; p_comps := rev st; p_slash := false |}))
    with false.
  2:{ symmetry. destruct (abs || negb (Nat.eqb (length (rev st)) 0)) eqn:E; [|reflexivity].
      unfold exists_pp. rewrite (resolve_pp_dir _ _ root); try done.
      cbn [p_abs p_comps]. destruct abs; [reflexivity|]. simpl in E.
      by rewrite negb_true_iff in E. }
  cbn [when]. unfold mbind, M_bind, mret, M_ret.
  replace (String.eqb "archive/" "") with false by reflexivity.
  replace (endswith_char "archive/" sep) with true by reflexivity.
  unfold isdir_pp. rewrite Htarget. cbn [negb when].
  by apply mkdir_pp_ok.
Qed.

(** One turn of the loop of [extract_from_to] on the member [archive/]:
    the directory [archive] is made in the destination, and the move of
    [archive/] to the destination raises, the destination having
    [archive] already. *)
Lemma relocate_directory_member (member : ZipInfo) (to_path : string) (s : state)
    (root : key) :
  resolve s to_path = Ok (root, Some Dir) →
  filename member = "archive/" →
  fs s !! (root ++ ["archive"]) = None →
  (zip_extract member to_path;;
   shutil_move (os_path_join to_path (filename member))
     (os_path_join to_path (os_path_split (filename member)).2);;
   os_rmdir (os_path_join to_path "archive/")) s
  = (Err (ShutilError "Destination path already exists"),
     update s (<[root ++ ["archive"] := Dir]> (fs s)) (EvMkdir (root ++ ["archive"]))).
Proof.
  intros Hto Hname Harch.
  rewrite (bind_ok _ _ _ _ _ (zip_extract_marker _ _ _ _ Hto Hname Harch)).
  rewrite Hname. change (os_path_split "archive/").2 with EmptyString.
  set (s1 := update s _ _).
  assert (to_path ≠ EmptyString) as Hne.
  { intros ->. apply resolve_pp_walk in Hto as (He & _). discriminate He. }
  assert (resolve s1 to_path = Ok (root, Some Dir)) as Hto1
    by (apply resolve_pp_dir_insert; [done | by rewrite Harch]).
  pose proof Hto1 as (He & Hw & Hr)%resolve_pp_walk.
  (* the destination, written with a slash at its end *)
  assert (resolve s1 (os_path_join to_path "") = Ok (root, Some Dir)) as Hdst.
  { destruct (parse_path_join to_path "" eq_refl) as [Habs Hcomps].
    change (p_comps (parse_path "")) with (@nil string) in Hcomps.
    rewrite app_nil_r in Hcomps.
    apply resolve_pp_dir; [| by rewrite Habs, Hcomps | by rewrite Habs, Hcomps | done].
    unfold nul_path. rewrite Hcomps. exact (resolve_pp_nul _ _ _ Hto). }
  assert (resolve s1 (os_path_join to_path "archive/") = Ok (root ++ ["archive"], Some Dir))
    as Hsrc.
  { rewrite (resolve_join s1 to_path "archive/" root Hto1 eq_refl eq_refl).
    change (p_comps (parse_path "archive/")) with ["archive"].
    rewrite (walk_one _ root "archive"); try done.
    simpl. by rewrite lookup_insert_eq. }
  apply bind_err. unfold shutil_move, isdir_pp, samefile.
  unfold resolve in Hdst, Hsrc. unfold resolve. rewrite Hdst, Hsrc.
  rewrite bool_decide_eq_false_2 by apply app_cons_ne_sym.
  rewrite (shutil_basename_archive _ Hne).
  pose proof (resolve_child s1 (os_path_join to_path "") "archive" root Hdst eq_refl) as Hreal.
  unfold exists_pp. unfold resolve in Hreal. rewrite Hreal.
  simpl. by rewrite lookup_insert_eq.
Qed.

(** An archive with the directory member [archive/], the members before it
    lying directly in [archive/]: the relocation raises at that member,
    whatever follows it. *)
Lemma extract_from_to_directory_member (zipname to_path : string) (root : key)
    (l1 l2 : list ZipInfo) (member : ZipInfo) (s : state) :
  resolve s to_path = Ok (root, Some Dir) →
  fs s !! (root ++ ["archive"]) = None →
  has_children (fs s) (root ++ ["archive"]) = false →
  Forall (flat_member (fs s) root) l1 →
  filename member = "archive/" →
  ∃ s', extract_from_to {| zip_filename := zipname; filelist := l1 ++ member :: l2 |}
          "archive/" to_path s
        = (Err (ShutilError "Destination path already exists"), s')
        ∧ fs s' = <[root ++ ["archive"] := Dir]> (relocated root l1 (fs s)).
Proof.
  intros Hto Harch Hch Hflat Hname.
  destruct (extract_from_to_flat zipname to_path root l1 s Hto Harch Hch Hflat)
    as (s1 & Hrun & Hfs & _ & Hto1 & Harch1 & _).
  unfold extract_from_to in *. cbn [filelist] in *.
  rewrite (for_each_app _ _ _ _ _ Hrun). cbn [for_each].
  replace (startswith (filename member) "archive/") with true by (by rewrite Hname).
  cbn [when]. eexists. split.
  - apply bind_err. by apply (relocate_directory_member member to_path s1 root).
  - simpl. by rewrite Hfs.
Qed.

(** ** Members in subdirectories and directory members *)

(** C3 at an archive with [archive/2024/data.warc.gz]: the member is moved
    to [data.warc.gz] in the destination, then [rmdir] of [archive] raises
    [OSError] for a directory that is not empty, since [archive/2024] is
    still in it; the loop stops there, [other.warc.gz] is never relocated,
    and the conversion ends with that error, the capture file not renamed
    and no [info.txt] written. *)
Theorem nested_member_stops_relocation :
  nested_moved.1 = Err (OSError ENOTEMPTY)
  ∧ fs nested_moved.2 !! (example_root ++ ["data.warc.gz"])
    = Some (File (to_bytes "WARC/1.1"))
  ∧ fs nested_moved.2 !! (example_root ++ ["archive"; "2024"]) = Some Dir
  ∧ fs nested_moved.2 !! (example_root ++ ["other.warc.gz"]) = None
  ∧ nested_run.1 = Err (OSError ENOTEMPTY)
  ∧ fs nested_run.2 !! (example_root ++ ["data.warc.gz"])
    = Some (File (to_bytes "WARC/1.1"))
  ∧ fs nested_run.2 !! (example_root ++ ["archive"; "2024"]) = Some Dir
  ∧ fs nested_run.2 !! (example_root ++ ["other.warc.gz"]) = None
  ∧ fs nested_run.2 !! (example_root ++ ["Linkra-2024-03-crawl-001.warc.gz"]) = None
  ∧ fs nested_run.2 !! (example_root ++ ["logs"; "crawl"; "info.txt"]) = None.
Proof. repeat split; vm_compute; reflexivity. Qed.

(** C8 at an archive with the directory member [archive/]: the member is
    not skipped; it is extracted as the directory [archive], and moving
    [archive/] to the destination raises [shutil.Error] since the
    destination already has [archive]; the loop stops there and the
    conversion ends with that error, no capture file relocated and no
    [info.txt] written.  And [rmdir] of a directory that is not there
    raises [FileNotFoundError]. *)
Theorem directory_member_raises :
  marker_moved.1 = Err (ShutilError "Destination path already exists")
  ∧ fs marker_moved.2 !! (example_root ++ ["archive"]) = Some Dir
  ∧ fs marker_moved.2 !! (example_root ++ ["data.warc.gz"]) = None
  ∧ marker_run.1 = Err (ShutilError "Destination path already exists")
  ∧ fs marker_run.2 !! (example_root ++ ["archive"]) = Some Dir
  ∧ fs marker_run.2 !! (example_root ++ ["data.warc.gz"]) = None
  ∧ fs marker_run.2 !! (example_root ++ ["logs"; "crawl"; "info.txt"]) = None
  ∧ (os_rmdir (os_path_join example_path "archive/") skeleton_state).1
    = Err FileNotFoundError.
Proof. repeat split; vm_compute; reflexivity. Qed.

(** * Further properties of the script *)

(** ** Reading the manifest *)

Lemma filter_no_member (name : string) (l : list ZipInfo) :
  no_member_named name l = true →
  List.filter (λ zi, String.eqb (filename zi) name) l = [].
Proof.
  induction l as [|zi l IH]; simpl; [done|].
  intros [Hzi Hl]%andb_prop. apply negb_true_iff in Hzi. rewrite Hzi. by apply IH.
Qed.

(** X1: an archive without a member [datapackage.json]: reading the manifest
    raises [KeyError] for that name. *)
Theorem missing_datapackage_raises (json_loads : bytes → option pyval) (wacz_zip : ZipFile) :
  no_member_named "datapackage.json" (filelist wacz_zip) = true →
  get_harvest_metadata json_loads wacz_zip = Err (KeyError "datapackage.json").
Proof.
  intros Hno. unfold get_harvest_metadata, zip_read.
  by rewrite (filter_no_member _ _ Hno).
Qed.

Lemma missing_datapackage_raises_witness :
  get_harvest_metadata example_loads
    {| zip_filename := "in/crawl-001.wacz"; filelist := [other_member] |}
  = Err (KeyError "datapackage.json").
Proof. apply missing_datapackage_raises. reflexivity. Defined.

(** X2: the manifest is read and checked before anything is made: whatever
    error the reading ends with, the conversion ends with it in the state it
    started from. *)
Theorem metadata_error_aborts (json_loads : bytes → option pyval) (py_str : pyval → string)
    (args : Arguments) (members : list ZipInfo) (today : string) (s : state) (e : exn) :
  get_harvest_metadata json_loads {| zip_filename := wacz_path args; filelist := members |}
    = Err e →
  prepare_and_run json_loads py_str args members today s = (Err e, s).
Proof.
  intros Hmeta. unfold prepare_and_run. apply bind_err. unfold lift. by rewrite Hmeta.
Qed.

Lemma metadata_error_aborts_witness :
  prepare_and_run undecodable example_str example_args example_members
    "2026-01-01T00:00:00" example_state
  = (Err JSONDecodeError, example_state).
Proof. apply metadata_error_aborts. reflexivity. Defined.

Lemma HarvestMetadata_init_ok_inv (v : pyval) (hm : HarvestMetadata) :
  HarvestMetadata_init v = Ok hm →
  ∃ obj created token,
    v = PDict obj ∧ obj !! "created" = Some created ∧ slice7 created = Ok token
    ∧ hm = {| required := {| full_date := created; date := token |};
              optional := {| title := default PNone (obj !! "title");
                             software := default PNone (obj !! "software");
                             main_page_url := default PNone (obj !! "mainPageUrl");
                             main_page_date := default PNone (obj !! "mainPageDate") |} |}.
Proof.
  unfold HarvestMetadata_init, RequiredHarvestMetadata_init.
  destruct v as [| b | z | f | s | l | obj]; try discriminate.
  - unfold py_in, py_getitem. by destruct (bool_decide _).
  - unfold py_in, py_getitem. by destruct (existsb _ _).
  - rewrite OptionalHarvestMetadata_init_dict. unfold py_in, py_getitem.
    destruct (obj !! "created") as [created|] eqn:Hc; [|discriminate].
    rewrite bool_decide_eq_true_2 by eauto.
    destruct (slice7 created) as [token|e] eqn:Hs; [|discriminate].
    intros [= <-]. by exists obj, created, token.
Qed.

(** X3: the manifests the script accepts: the archive has a member
    [datapackage.json], it decodes to a JSON object, and the object has under
    "created" a string or an array; the date token is the first seven
    characters (or elements) of it, and each optional field is the value
    the object has under its key, [None] without the key. *)
Theorem harvest_metadata_accepted (json_loads : bytes → option pyval) (wacz_zip : ZipFile)
    (hm : HarvestMetadata) :
  get_harvest_metadata json_loads wacz_zip = Ok hm
  ↔ ∃ (datapackage_data : bytes) (obj : gmap string pyval) (created token : pyval),
      zip_read wacz_zip "datapackage.json" = Ok datapackage_data
      ∧ json_loads datapackage_data = Some (PDict obj)
      ∧ obj !! "created" = Some created
      ∧ ((∃ s, created = PStr s ∧ token = PStr (str_take 7 s))
         ∨ (∃ l, created = PList l ∧ token = PList (take 7 l)))
      ∧ hm = {| required := {| full_date := created; date := token |};
                optional := {| title := default PNone (obj !! "title");
                               software := default PNone (obj !! "software");
                               main_page_url := default PNone (obj !! "mainPageUrl");
                               main_page_date := default PNone (obj !! "mainPageDate") |} |}.
Proof.
  unfold get_harvest_metadata. split.
  - destruct (zip_read wacz_zip "datapackage.json") as [data|e] eqn:Hread; [|discriminate].
    destruct (json_loads data) as [v|] eqn:Hjson; [|discriminate].
    intros (obj & created & token & -> & Hc & Hs & ->)%HarvestMetadata_init_ok_inv.
    exists data, obj, created, token. repeat split; try done.
    destruct created; try discriminate; injection Hs as <-; eauto.
  - intros (data & obj & created & token & -> & -> & Hc & Hs & ->).
    unfold HarvestMetadata_init, RequiredHarvestMetadata_init, py_in, py_getitem.
    rewrite Hc, OptionalHarvestMetadata_init_dict.
    rewrite bool_decide_eq_true_2 by eauto.
    by destruct Hs as [(s & -> & ->)|(l & -> & ->)].
Qed.

(** X4: manifests the script rejects by their shape: a manifest that is null, a
    boolean or a number raises [TypeError]; an array or a string raises
    [TypeError] when it holds "created" (as an element, as a substring) and
    the [ValueError] of the missing property when it does not; an object
    whose "created" is null, a boolean or a number raises [TypeError]. *)
Theorem malformed_manifest_rejected :
  (∀ v : pyval, is_scalar v = true → HarvestMetadata_init v = Err TypeError)
  ∧ (∀ l : list pyval,
       HarvestMetadata_init (PList l)
       = Err (if existsb (is_str "created") l then TypeError
              else ValueError missing_created_message))
  ∧ (∀ s : string,
       HarvestMetadata_init (PStr s)
       = Err (if bool_decide (is_Some (String.index 0 "created" s)) then TypeError
              else ValueError missing_created_message))
  ∧ (∀ (obj : gmap string pyval) (created : pyval),
       obj !! "created" = Some created → is_scalar created = true →
       HarvestMetadata_init (PDict obj) = Err TypeError).
Proof.
  unfold HarvestMetadata_init, RequiredHarvestMetadata_init. repeat split.
  - by intros [| b | z | f | s | l | obj].
  - intros l. unfold py_in, py_getitem. by destruct (existsb _ _).
  - intros s. unfold py_in, py_getitem. by destruct (bool_decide _).
  - intros obj created Hc Hsc. unfold py_in, py_getitem. rewrite Hc.
    rewrite bool_decide_eq_true_2 by eauto. by destruct created.
Qed.

Lemma malformed_manifest_rejected_witness :
  HarvestMetadata_init PNone = Err TypeError
  ∧ HarvestMetadata_init (PList [PStr "created"]) = Err TypeError
  ∧ HarvestMetadata_init (PList [PStr "title"]) = Err (ValueError missing_created_message)
  ∧ HarvestMetadata_init (PStr "not created yet") = Err TypeError
  ∧ HarvestMetadata_init (PDict {[ "created" := PInt 2024 ]}) = Err TypeError.
Proof.
  destruct malformed_manifest_rejected as (Hscalar & Hlist & Hstr & Hobj).
  split; [by apply Hscalar|].
  split; [exact (Hlist [PStr "created"])|].
  split; [exact (Hlist [PStr "title"])|].
  split; [exact (Hstr "not created yet")|].
  apply (Hobj _ (PInt 2024)); reflexivity.
Defined.

(** ** The harvest name of an archive path *)

Lemma str_split_head_app (c : ascii) (stem rest : string) :
  str_contains c stem = false →
  (String.eqb rest "" || startswith rest (String c "")) = true →
  str_split_head c (stem +:+ rest) = stem.
Proof.
  intros Hstem Hrest. induction stem as [|a r IH].
  - rewrite append_nil_l. destruct rest as [|b rest]; [reflexivity|].
    simpl in Hrest. rewrite andb_true_r in Hrest. simpl. by rewrite Hrest.
  - rewrite append_cons. simpl in Hstem |- *.
    apply orb_false_elim in Hstem as [Ha Hr]. rewrite Ha. f_equal. by apply IH.
Qed.

Lemma os_path_basename_dir (dir t : string) :
  (String.eqb dir "" || endswith_char dir sep) = true →
  str_contains sep t = false →
  os_path_basename (dir +:+ t) = t.
Proof.
  intros Hdir Ht. destruct (String.eqb_spec dir "") as [->|Hne].
  - rewrite append_nil_l. unfold os_path_basename. by rewrite (rfind_succ_absent _ _ Ht).
  - simpl in Hdir. apply endswith_char_inv in Hdir as [d0 ->].
    rewrite append_assoc. rewrite append_cons, append_nil_l.
    by apply os_path_basename_app.
Qed.

(** X5: the harvest name of the archive [<dir><stem><rest>], where [dir] is
    empty or ends with a slash, [stem] has neither slash nor dot and [rest]
    is empty or starts with a dot: [Linkra-<date>-<stem>].  Neither the
    directory of the archive nor what follows the first dot of its name is
    in the harvest name. *)
Theorem harvest_name_of_path (py_str : pyval → string) (dir stem rest token : string)
    (members : list ZipInfo) (hm : HarvestMetadata) :
  date (required hm) = PStr token →
  (String.eqb dir "" || endswith_char dir sep) = true →
  str_contains sep stem = false →
  str_contains "." stem = false →
  str_contains sep rest = false →
  (String.eqb rest "" || startswith rest ".") = true →
  get_harvest_name py_str {| zip_filename := dir +:+ stem +:+ rest; filelist := members |} hm
  = "Linkra-" +:+ token +:+ "-" +:+ stem.
Proof.
  intros Hd Hdir Hstem Hdot Hrest Hext. unfold get_harvest_name. cbn [zip_filename].
  rewrite Hd. cbn [py_format].
  rewrite (os_path_basename_dir dir (stem +:+ rest) Hdir)
    by (by rewrite str_contains_app, Hstem, Hrest).
  rewrite (str_split_head_app _ _ _ Hdot Hext). reflexivity.
Qed.

Lemma harvest_name_of_path_witness :
  get_harvest_name example_str
    {| zip_filename := "in/" +:+ "crawl-001" +:+ ".wacz"; filelist := example_members |}
    example_metadata
  = "Linkra-" +:+ "2024-03" +:+ "-" +:+ "crawl-001"
  ∧ get_harvest_name example_str
      {| zip_filename := "" +:+ "crawl-001" +:+ ".2024.tar.gz"; filelist := [] |}
      example_metadata
    = "Linkra-" +:+ "2024-03" +:+ "-" +:+ "crawl-001".
Proof.
  split; apply harvest_name_of_path; reflexivity.
Defined.

(** ** Archives without capture files *)

(** X6: with no member below the prefix the relocation does nothing and
    succeeds, whether its destination exists or not; so does the extraction
    of the indexes for an archive without a member below [indexes/]. *)
Theorem relocation_without_members :
  (∀ (wacz_zip : ZipFile) (from_path to_path : string) (s : state),
     no_member_below from_path (filelist wacz_zip) = true →
     extract_from_to wacz_zip from_path to_path s = (Ok tt, s))
  ∧ (∀ (wacz_zip : ZipFile) (harvest_path : string) (s : state),
       no_member_below "indexes/" (filelist wacz_zip) = true →
       extract_indexes wacz_zip harvest_path s = (Ok tt, s)).
Proof.
  assert (∀ (wacz_zip : ZipFile) (from_path to_path : string) (s : state),
            no_member_below from_path (filelist wacz_zip) = true →
            extract_from_to wacz_zip from_path to_path s = (Ok tt, s)) as Hgen.
  { intros wacz_zip from_path to_path s Hno. apply extract_from_to_no_match.
    apply Forall_forall. intros zi Hin.
    apply negb_true_iff. unfold no_member_below in Hno.
    rewrite forallb_forall in Hno. apply Hno. by apply list_elem_of_In. }
  split; [exact Hgen|].
  intros wacz_zip harvest_path s Hno. by apply Hgen.
Qed.

Lemma relocation_without_members_witness :
  extract_from_to {| zip_filename := "in/crawl-001.wacz"; filelist := [other_member] |}
    "pages/" "nowhere" example_state = (Ok tt, example_state)
  ∧ extract_indexes {| zip_filename := "in/crawl-001.wacz"; filelist := [other_member] |}
      example_path skeleton_state = (Ok tt, skeleton_state).
Proof.
  destruct relocation_without_members as [Hfrom Hidx].
  split; [by apply Hfrom | by apply Hidx].
Defined.

(** ** Archives whose capture files lie directly in [archive/] *)



(** ** Members the relocation stops at *)



(** X9: the directory member [archive/] that follows members lying directly in
    [archive/]: it is made as the directory [archive] of the destination,
    and the move of [archive/] into the destination raises [shutil.Error],
    the destination having an [archive] already; the relocation ends there,
    with the directory left and the members after it not looked at. *)
Theorem directory_member_aborts (zipname to_path : string) (root : key)
    (l1 l2 : list ZipInfo) (member : ZipInfo) (s : state) :
  resolve s to_path = Ok (root, Some Dir) →
  fs s !! (root ++ ["archive"]) = None →
  has_children (fs s) (root ++ ["archive"]) = false →
  forallb (flat_memberb (fs s) root) l1 = true →
  filename member = "archive/" →
  ∃ s', extract_from_to {| zip_filename := zipname; filelist := l1 ++ member :: l2 |}
          "archive/" to_path s
        = (Err (ShutilError "Destination path already exists"), s')
        ∧ fs s' = <[root ++ ["archive"] := Dir]> (relocated root l1 (fs s)).
Proof.
  intros Hto Harch Hch Hflat%flat_memberb_spec Hname.
  by apply extract_from_to_directory_member.
Qed.

Lemma directory_member_aborts_witness :
  ∃ s', extract_from_to
          {| zip_filename := "in/crawl-001.wacz";
             filelist := [other_member] ++ marker_member :: [other_member] |}
          "archive/" example_path skeleton_state
        = (Err (ShutilError "Destination path already exists"), s')
        ∧ fs s' = <[example_root ++ ["archive"] := Dir]>
                    (relocated example_root [other_member] (fs skeleton_state)).
Proof.
  apply (directory_member_aborts "in/crawl-001.wacz" example_path example_root
           [other_member] [other_member] marker_member skeleton_state);
    vm_compute; reflexivity.
Defined.

(** ** Directories that stay *)






(** ** The directories of a harvest *)









(** ** The places of the capture files *)





(** ** The harvest name as a name *)



Lemma plain_harvest_name (py_str : pyval → string) (wacz_zip : ZipFile)
    (hm : HarvestMetadata) (token : string) :
  date (required hm) = PStr token → str_contains sep token = false →
  valid_name (get_harvest_name py_str wacz_zip hm) = true →
  plain_name (get_harvest_name py_str wacz_zip hm) = true
  ∧ str_contains sep (get_harvest_name py_str wacz_zip hm) = false
  ∧ get_harvest_name py_str wacz_zip hm ≠ "data"
  ∧ get_harvest_name py_str wacz_zip hm +:+ ".warc.gz" ≠ "logs".
Proof.
  intros Hd Hsep Hvalid.
  pose proof (get_harvest_name_separator py_str wacz_zip hm token Hd) as Hs.
  rewrite Hsep in Hs.
  assert (∃ r, get_harvest_name py_str wacz_zip hm = String "L" r) as [r Hr]
    by (unfold get_harvest_name; eexists; reflexivity).
  split; [unfold plain_name; rewrite Hs, Hvalid; by rewrite Hr|].
  split; [exact Hs|].
  split; rewrite Hr; discriminate.
Qed.

(** ** The rename, with the state it ends in *)



(** ** The conversion of an archive whose capture files lie directly in [archive/] *)











(** ** Conversions that cannot make the harvest directory *)

Lemma comps_first (a : ascii) (r : string) :
  Ascii.eqb a sep = false → p_comps (parse_path (String a r)) ≠ [].
Proof.
  intros Ha. cbn [parse_path p_comps str_split]. rewrite Ha.
  by destruct (str_split sep r).
Qed.

Lemma harvest_name_first (py_str : pyval → string) (wacz_zip : ZipFile)
    (hm : HarvestMetadata) :
  ∃ r, get_harvest_name py_str wacz_zip hm = String "L" r.
Proof. unfold get_harvest_name. eexists. reflexivity. Qed.

Lemma str_split_nul (s : string) :
  has_nul s = false → existsb has_nul (str_split sep s) = false.
Proof.
  unfold has_nul. induction s as [|a r IH]; [done|].
  cbn [str_contains str_split]. intros [Ha Hr]%orb_false_elim. specialize (IH Hr).
  destruct (Ascii.eqb a sep); [exact IH|].
  destruct (str_split sep r) as [|w ws]; cbn [existsb str_contains] in *.
  - by rewrite Ha.
  - apply orb_false_elim in IH as [Hw Hws]. by rewrite Ha, Hw, Hws.
Qed.

Lemma existsb_filter {A : Type} (f g : A → bool) (l : list A) :
  existsb f l = false → existsb f (List.filter g l) = false.
Proof.
  induction l as [|a l IH]; [done|]. cbn [existsb List.filter].
  intros [Ha Hl]%orb_false_elim. destruct (g a); cbn [existsb]; rewrite ?Ha; by apply IH.
Qed.

(** A string without a NUL character parses to a path without one. *)
Lemma nul_path_parse (p : string) : has_nul p = false → nul_path (parse_path p) = false.
Proof. intros Hp. unfold nul_path. by apply existsb_filter, str_split_nul. Qed.

(** X14: the script does not make the target directory: when the path given as
    the target leads to nothing, or to a regular file, and the harvest name
    holds no NUL character, the conversion raises [FileNotFoundError], or
    [NotADirectoryError], at the first [mkdir] and changes nothing. *)
Theorem missing_target_aborts (json_loads : bytes → option pyval) (py_str : pyval → string)
    (args : Arguments) (members : list ZipInfo) (today : string) (s : state)
    (hm : HarvestMetadata) (k : key) (n : option node) :
  get_harvest_metadata json_loads {| zip_filename := wacz_path args; filelist := members |}
    = Ok hm →
  has_nul (get_harvest_name py_str
             {| zip_filename := wacz_path args; filelist := members |} hm) = false →
  resolve s (target_path args) = Ok (k, n) →
  n ≠ Some Dir →
  prepare_and_run json_loads py_str args members today s
  = (Err match n with
         | None => FileNotFoundError
         | Some _ => NotADirectoryError
         end, s).
Proof.
  intros Hmeta Hnul Htarget Hn. unfold prepare_and_run.
  erewrite bind_ok; [|unfold lift; by rewrite Hmeta]. cbv zeta.
  apply bind_err. apply create_directory_structure_unresolved.
  apply nul_path_parse in Hnul.
  destruct (harvest_name_first py_str
              {| zip_filename := wacz_path args; filelist := members |} hm) as [r Hr].
  rewrite Hr in *.
  pose proof (resolve_pp_nul _ _ _ Htarget) as Hnt.
  apply resolve_pp_walk in Htarget as (He & Hw & Hk).
  destruct (parse_path_join (target_path args) (String "L" r) eq_refl) as [Habs Hcomps].
  pose proof (comps_first "L" r eq_refl) as Hne.
  unfold resolve_pp, nul_path in *. cbn [no_slash p_abs p_comps p_slash].
  rewrite Habs, Hcomps, existsb_app, Hnt, Hnul, walk_app, Hw. cbn [orb].
  destruct (p_comps (parse_path (String "L" r))) as [|c cs]; [done|].
  replace (negb (p_abs (parse_path (target_path args)))
           && Nat.eqb (length (p_comps (parse_path (target_path args)) ++ c :: cs)) 0)
    with false.
  - simpl. rewrite Hk. by destruct n as [[|x]|].
  - symmetry. apply andb_false_intro2. rewrite length_app. simpl.
    by rewrite Nat.add_succ_r.
Qed.

Lemma missing_target_aborts_witness :
  prepare_and_run example_loads example_str
    {| wacz_path := "in/crawl-001.wacz"; target_path := "archive-2024" |}
    example_members "2026-01-01T00:00:00" example_state
  = (Err FileNotFoundError, example_state)
  ∧ prepare_and_run example_loads example_str
      {| wacz_path := "in/crawl-001.wacz"; target_path := "notes" |}
      example_members "2026-01-01T00:00:00" file_state
    = (Err NotADirectoryError, file_state).
Proof.
  split.
  - apply (missing_target_aborts example_loads example_str
             {| wacz_path := "in/crawl-001.wacz"; target_path := "archive-2024" |}
             example_members "2026-01-01T00:00:00" example_state example_metadata
             ["archive-2024"] None);
      [vm_compute; reflexivity | reflexivity | vm_compute; reflexivity | discriminate].
  - apply (missing_target_aborts example_loads example_str
             {| wacz_path := "in/crawl-001.wacz"; target_path := "notes" |}
             example_members "2026-01-01T00:00:00" file_state example_metadata
             ["notes"] (Some (File (to_bytes "text"))));
      [vm_compute; reflexivity | reflexivity | vm_compute; reflexivity | discriminate].
Defined.

(** X15: the script does not write into a harvest that is there: when the
    target directory has anything under the harvest name, a directory or a
    file, and the harvest name is one a directory takes (no NUL character,
    at most 255 bytes), the conversion raises [FileExistsError] at the
    first [mkdir] and changes nothing. *)
Theorem existing_harvest_aborts (json_loads : bytes → option pyval) (py_str : pyval → string)
    (args : Arguments) (members : list ZipInfo) (today : string) (s : state)
    (hm : HarvestMetadata) (token : string) (troot : key) (n : node) :
  let wacz_zip := {| zip_filename := wacz_path args; filelist := members |} in
  get_harvest_metadata json_loads wacz_zip = Ok hm →
  date (required hm) = PStr token →
  str_contains sep token = false →
  valid_name (get_harvest_name py_str wacz_zip hm) = true →
  resolve s (target_path args) = Ok (troot, Some Dir) →
  fs s !! (troot ++ [get_harvest_name py_str wacz_zip hm]) = Some n →
  prepare_and_run json_loads py_str args members today s = (Err FileExistsError, s).
Proof.
  intros wacz_zip Hmeta Hdate Hsep Hvalid Htarget Hthere. unfold prepare_and_run.
  fold wacz_zip.
  erewrite bind_ok; [|unfold lift; by rewrite Hmeta]. cbv zeta.
  apply bind_err. unfold create_directory_structure. apply bind_err.
  apply mkdir_pp_exists. unfold exists_pp.
  destruct (plain_harvest_name py_str wacz_zip hm token Hdate Hsep Hvalid) as (Hplain & _).
  pose proof (resolve_child _ _ _ _ Htarget Hplain) as Hres. rewrite Hthere in Hres.
  unfold resolve in Hres. by rewrite Hres.
Qed.

Lemma existing_harvest_aborts_witness :
  prepare_and_run example_loads example_str example_args example_members
    "2026-01-01T00:00:00" bare_state
  = (Err FileExistsError, bare_state).
Proof.
  apply (existing_harvest_aborts example_loads example_str example_args example_members
           "2026-01-01T00:00:00" bare_state example_metadata "2024-03" ["out"] Dir);
    vm_compute; reflexivity.
Defined.

(** ** What the creation of the directories leaves *)

(** X16: when [create_directory_structure] returns, nothing was at the harvest
    path before, each of the four paths is a directory afterwards, every
    path that led to a directory before still does, and four calls have
    been made. *)
Theorem directory_structure_made (harvest_path : string) (s s' : state) :
  create_directory_structure harvest_path s = (Ok tt, s') →
  exists_pp s (parse_path harvest_path) = false
  ∧ Forall (λ q, isdir_pp s' (parse_path q) = true) (skeleton_paths harvest_path)
  ∧ (∀ q : ppath, isdir_pp s q = true → isdir_pp s' q = true)
  ∧ ∃ k1 k2 k3 k4, log s' = log s ++ [EvMkdir k1; EvMkdir k2; EvMkdir k3; EvMkdir k4].
Proof.
  intros Hrun. pose proof Hrun as Hfor. rewrite create_directory_structure_for_each in Hfor.
  split; [|split; [|split]].
  - unfold create_directory_structure in Hrun.
    apply bind_ok_inv in Hrun as ([] & s1 & (k & Hres & _)%mkdir_pp_ok_inv & _).
    unfold exists_pp. by rewrite Hres.
  - by apply (for_each_mkdir_isdir _ s).
  - intros q. by apply (for_each_mkdir_keeps_dir _ _ _ _ Hfor).
  - unfold create_directory_structure in Hrun.
    apply bind_ok_inv in Hrun as ([] & s1 & (k1 & _ & ->)%mkdir_pp_ok_inv & Hrun).
    apply bind_ok_inv in Hrun as ([] & s2 & (k2 & _ & ->)%mkdir_pp_ok_inv & Hrun).
    apply bind_ok_inv in Hrun as ([] & s3 & (k3 & _ & ->)%mkdir_pp_ok_inv & Hrun).
    apply mkdir_pp_ok_inv in Hrun as (k4 & _ & ->).
    exists k1, k2, k3, k4. simpl. by rewrite <- !app_assoc.
Qed.

Lemma directory_structure_made_witness :
  exists_pp example_state (parse_path example_path) = false
  ∧ Forall (λ q, isdir_pp (create_directory_structure example_path example_state).2
                   (parse_path q) = true)
      (skeleton_paths example_path).
Proof.
  destruct (directory_structure_made example_path example_state
              (create_directory_structure example_path example_state).2)
    as (Hfree & Hdirs & _).
  - apply run_ok_eta. vm_compute. reflexivity.
  - split; [exact Hfree | exact Hdirs].
Defined.

(** ** The provenance file without its directory *)

(** X17: [create_info_file] makes no directory: in a harvest directory without
    [logs/crawl] it raises [FileNotFoundError], and with a directory at
    [logs/crawl/info.txt] it raises [IsADirectoryError]; nothing is written
    either way. *)
Theorem info_file_not_written (py_str : pyval → string) (hm : HarvestMetadata)
    (harvest_path wacz_file_name harvest_name today : string) (s : state) (root : key) :
  resolve s harvest_path = Ok (root, Some Dir) →
  (fs s !! (root ++ ["logs"]) = None
   ∨ fs s !! (root ++ ["logs"]) = Some Dir ∧ fs s !! (root ++ ["logs"; "crawl"]) = None →
   create_info_file py_str hm harvest_path wacz_file_name harvest_name today s
   = (Err FileNotFoundError, s))
  ∧ (fs s !! (root ++ ["logs"]) = Some Dir →
     fs s !! (root ++ ["logs"; "crawl"]) = Some Dir →
     fs s !! (root ++ ["logs"; "crawl"; "info.txt"]) = Some Dir →
     create_info_file py_str hm harvest_path wacz_file_name harvest_name today s
     = (Err IsADirectoryError, s)).
Proof.
  intros Hroot.
  pose proof (resolve_join s harvest_path "logs/crawl/info.txt" root Hroot eq_refl eq_refl) as Hres.
  change (p_comps (parse_path "logs/crawl/info.txt")) with ["logs"; "crawl"; "info.txt"] in Hres.
  pose proof Hroot as (_ & _ & Hr)%resolve_pp_walk.
  unfold create_info_file, open_write, write_pp. unfold resolve in Hres.
  rewrite no_slash_id
    by (by rewrite (parse_path_join_slash harvest_path "logs/crawl/info.txt" eq_refl)).
  split.
  - intros Hmissing. rewrite Hres. cbn [walk]. rewrite Hr.
    change (too_long "logs") with false. cbn iota.
    change (step root "logs") with (root ++ ["logs"]).
    destruct Hmissing as [-> | [-> Hcrawl]]; [reflexivity|].
    change (too_long "crawl") with false. cbn iota.
    change (step (root ++ ["logs"]) "crawl") with ((root ++ ["logs"]) ++ ["crawl"]).
    rewrite <- app_assoc. cbn [app]. by rewrite Hcrawl.
  - intros Hlogs Hcrawl Hinfo. rewrite Hres.
    rewrite (walk_three _ root "logs" "crawl" "info.txt") by done.
    by rewrite Hinfo.
Qed.

Lemma info_file_not_written_witness :
  create_info_file example_str example_metadata example_path "crawl-001.wacz" example_name
    "2026-01-01T00:00:00" bare_state
  = (Err FileNotFoundError, bare_state)
  ∧ create_info_file example_str example_metadata example_path "crawl-001.wacz" example_name
      "2026-01-01T00:00:00" info_dir_state
    = (Err IsADirectoryError, info_dir_state).
Proof.
  split.
  - apply (info_file_not_written example_str example_metadata example_path "crawl-001.wacz"
             example_name "2026-01-01T00:00:00" bare_state example_root);
      [vm_compute; reflexivity | left; vm_compute; reflexivity].
  - apply (info_file_not_written example_str example_metadata example_path "crawl-001.wacz"
             example_name "2026-01-01T00:00:00" info_dir_state example_root);
      vm_compute; reflexivity.
Defined.

(** ** The lines of the provenance file *)

Lemma str_split_line (c : ascii) (l rest : string) :
  str_contains c l = false →
  str_split c (l +:+ String c rest) = l :: str_split c rest.
Proof. intros Hl. by rewrite str_split_app, (str_split_no_sep _ _ Hl). Qed.

Lemma print_all_split (lines : list string) :
  single_lines lines = true →
  str_split newline (print_all lines) = lines ++ [EmptyString].
Proof.
  induction lines as [|l lines IH]; [reflexivity|].
  cbn [single_lines forallb]. intros [Hl Hrest]%andb_prop. apply negb_true_iff in Hl.
  cbn [print_all foldr]. rewrite (str_split_line _ _ _ Hl).
  cbn [app]. f_equal. by apply IH.
Qed.

(** X18: what is written to [info.txt] is each line followed by a newline: as
    long as no line holds a newline itself, the text split at its newlines
    gives back the lines, and an empty string after the last newline. *)
Theorem info_lines_recovered (py_str : pyval → string) (hm : HarvestMetadata)
    (wacz_file_name harvest_name today : string) :
  single_lines (info_lines py_str hm wacz_file_name harvest_name today) = true →
  str_split newline (print_all (info_lines py_str hm wacz_file_name harvest_name today))
  = info_lines py_str hm wacz_file_name harvest_name today ++ [EmptyString].
Proof. apply print_all_split. Qed.

Lemma info_lines_recovered_witness :
  str_split newline
    (print_all (info_lines example_str example_metadata "crawl-001.wacz" example_name
                  "2026-01-01T00:00:00"))
  = info_lines example_str example_metadata "crawl-001.wacz" example_name
      "2026-01-01T00:00:00" ++ [EmptyString].
Proof. apply info_lines_recovered. reflexivity. Defined.

(** ** A member whose name goes up from [archive/] *)







(** ** A member that has the name of a directory of the destination *)






(** ** Names the file system does not take *)

Lemma str_split_has_nul (s : string) :
  existsb has_nul (str_split sep s) = has_nul s.
Proof.
  unfold has_nul. induction s as [|a r IH]; [reflexivity|].
  cbn [str_split str_contains].
  destruct (Ascii.eqb_spec a sep) as [->|Hne].
  - cbn [existsb str_contains]. by rewrite IH.
  - destruct (str_split sep r) as [|w ws] eqn:Hsplit.
    + by destruct (str_split_nonnil sep r).
    + cbn [existsb str_contains] in *. by rewrite <- IH, orb_assoc.
Qed.

Lemma existsb_filter_nonempty (l : list string) :
  existsb has_nul (List.filter nonempty l) = existsb has_nul l.
Proof.
  induction l as [|c l IH]; [reflexivity|]. cbn [List.filter existsb].
  destruct c as [|a c]; [exact IH|]. cbn [nonempty String.eqb negb existsb]. by rewrite IH.
Qed.

(** A path has a NUL character in one of its names when the string has
    one. *)
Lemma nul_path_has_nul (p : string) : nul_path (parse_path p) = has_nul p.
Proof.
  unfold nul_path. cbn [parse_path p_comps].
  by rewrite existsb_filter_nonempty, str_split_has_nul.
Qed.

Lemma has_nul_join (a b : string) : has_nul b = true → has_nul (os_path_join a b) = true.
Proof.
  intros Hb. unfold os_path_join, has_nul in *.
  destruct (startswith b "/"); [exact Hb|].
  destruct (String.eqb a "" || endswith_char a sep);
    rewrite !str_contains_app, Hb; by rewrite !orb_true_r.
Qed.

(** X21: a manifest whose date has a NUL character among its first seven: the
    harvest name has it too, Python refuses the path of the harvest
    directory, and the conversion raises [ValueError] at the first [mkdir],
    with nothing changed. *)
Theorem date_with_nul_aborts (json_loads : bytes → option pyval) (py_str : pyval → string)
    (args : Arguments) (members : list ZipInfo) (today : string) (s : state)
    (datapackage_data : bytes) (obj : gmap string pyval) (created : string) :
  zip_read {| zip_filename := wacz_path args; filelist := members |} "datapackage.json"
    = Ok datapackage_data →
  json_loads datapackage_data = Some (PDict obj) →
  obj !! "created" = Some (PStr created) →
  has_nul (str_take 7 created) = true →
  prepare_and_run json_loads py_str args members today s
  = (Err (ValueError "embedded null byte"), s).
Proof.
  intros Hread Hjson Hc Hnul. unfold prepare_and_run.
  erewrite bind_ok.
  2:{ unfold lift, get_harvest_metadata. rewrite Hread, Hjson.
      by rewrite (HarvestMetadata_init_str _ _ Hc). }
  cbv zeta. apply bind_err. unfold create_directory_structure. apply bind_err.
  apply mkdir_pp_err. unfold resolve_pp.
  replace (nul_path (no_slash (parse_path _))) with true; [reflexivity|].
  symmetry. change (nul_path (no_slash ?p)) with (nul_path p).
  rewrite nul_path_has_nul. apply has_nul_join.
  unfold get_harvest_name, has_nul in *. cbn [date required py_format].
  rewrite !str_contains_app, Hnul. by rewrite !orb_true_r.
Qed.

Lemma date_with_nul_aborts_witness :
  prepare_and_run nul_loads example_str example_args example_members
    "2026-01-01T00:00:00" example_state
  = (Err (ValueError "embedded null byte"), example_state).
Proof.
  apply (date_with_nul_aborts nul_loads example_str example_args example_members
           "2026-01-01T00:00:00" example_state (to_bytes "{}") nul_manifest
           (String "2" (String NUL "024-03-15")));
    reflexivity.
Defined.

(** X22: after the relocation, with a harvest name without a separator whose
    file name [<harvest name>.warc.gz] has more than 255 bytes: the rename
    of a regular file [data.warc.gz] raises [OSError] for a name that is too
    long, and the file keeps its name. *)
Theorem long_name_not_renamed (wacz_zip : ZipFile) (harvest_path harvest_name : string)
    (s s1 : state) (root : key) (c : bytes) :
  extract_from_to wacz_zip "archive/" harvest_path s = (Ok tt, s1) →
  resolve s1 harvest_path = Ok (root, Some Dir) →
  str_contains sep harvest_name = false →
  has_nul harvest_name = false →
  too_long (harvest_name +:+ ".warc.gz") = true →
  fs s1 !! (root ++ ["data.warc.gz"]) = Some (File c) →
  extract_warcs wacz_zip harvest_path harvest_name s = (Err (OSError ENAMETOOLONG), s1).
Proof.
  intros Hrel Hroot Hsep Hnul Hlong Hc.
  set (new := harvest_name +:+ ".warc.gz").
  assert (str_contains sep new = false) as Hsn
    by (unfold new; by rewrite str_contains_app, Hsep).
  assert (p_comps (parse_path new) = [new]) as Hcomps.
  { cbn [parse_path p_comps]. rewrite (str_split_no_sep _ _ Hsn). unfold new.
    by destruct harvest_name. }
  assert (nul_path (parse_path new) = false) as Hnn.
  { rewrite nul_path_has_nul. unfold has_nul in *. unfold new.
    by rewrite str_contains_app, Hnul. }
  pose proof (resolve_child _ _ _ _ Hroot (eq_refl : plain_name "data.warc.gz" = true)) as Hold.
  rewrite Hc in Hold.
  pose proof (resolve_join _ _ _ _ Hroot (startswith_no_sep _ Hsn) Hnn) as Hnew.
  rewrite Hcomps in Hnew. cbn [walk] in Hnew.
  pose proof Hroot as (_ & _ & Hr)%resolve_pp_walk. rewrite Hr in Hnew.
  fold new in Hlong. rewrite Hlong in Hnew. cbv iota beta in Hnew.
  unfold extract_warcs. rewrite (bind_ok _ _ _ _ _ Hrel). fold new.
  unfold mbind, M_bind, os_path_exists, exists_pp. unfold resolve in Hold. rewrite Hold.
  cbn [when]. unfold os_rename. cbv zeta.
  rewrite (resolve_pp_nul _ _ _ Hold). cbn [orb].
  destruct (parse_path_join harvest_path new (startswith_no_sep _ Hsn)) as [Habs Hjoin].
  replace (nul_path (parse_path (os_path_join harvest_path new))) with false.
  2:{ symmetry. pose proof (resolve_pp_nul _ _ _ Hroot) as Hnr.
      unfold nul_path in *. by rewrite Hjoin, existsb_app, Hnn, Hnr. }
  rewrite (resolve_pp_resolve_dir _ _ _ Hold).
  replace (resolve_dir s1 (parse_path (os_path_join harvest_path new))) with (Ok tt).
  2:{ symmetry. unfold resolve_dir. rewrite Habs, Hjoin, Hcomps, removelast_last.
      apply resolve_pp_walk in Hroot as (He & Hw & Hk). rewrite Hw, Hk.
      replace (negb (p_abs (parse_path harvest_path))
               && Nat.eqb (length (p_comps (parse_path harvest_path) ++ [new])) 0)
        with false.
      - by destruct (p_comps (parse_path harvest_path) ++ [new]) eqn:E;
          [destruct (p_comps (parse_path harvest_path)) |].
      - symmetry. apply andb_false_intro2. rewrite length_app. simpl.
        by rewrite Nat.add_1_r. }
  rewrite (dot_final_child harvest_path "data.warc.gz" eq_refl).
  replace (dot_final (parse_path (os_path_join harvest_path new))) with false.
  2:{ symmetry. apply (dot_final_join _ _ new); [by apply startswith_no_sep | by rewrite Hcomps | |];
        apply String.eqb_neq; intros Heq; apply (f_equal String.length) in Heq;
        unfold new in Heq; rewrite str_length_app in Heq; simpl in Heq; lia. }
  cbn [orb]. rewrite (resolve_pp_no_slash _ _ _ Hold).
  rewrite no_slash_id.
  2:{ rewrite parse_path_join_slash;
        [by apply endswith_no_sep | by apply startswith_no_sep
        | unfold new; by destruct harvest_name]. }
  unfold resolve in Hnew. by rewrite Hnew.
Qed.

Lemma long_name_not_renamed_witness :
  extract_warcs {| zip_filename := "in/crawl-001.wacz"; filelist := [] |}
    example_path long_name renamed_taken_state
  = (Err (OSError ENAMETOOLONG), renamed_taken_state).
Proof.
  apply (long_name_not_renamed {| zip_filename := "in/crawl-001.wacz"; filelist := [] |}
           example_path long_name renamed_taken_state renamed_taken_state example_root
           (to_bytes "WARC/1.1"));
    vm_compute; reflexivity.
Defined.
